(** * browsermcp: the dual-protocol WebSocket relay

    A shallow embedding of [src/websocket-mcp-server.ts] (the connection
    classifier, the controller and executor handlers), of the socket message
    sender [createSocketMessageSender], of the zod tool declarations and of
    the static tool list of the entry point, followed by the properties of
    the relay that the specification states. *)

From Stdlib Require Import ZArith Ascii String List Lia.
From stdpp Require Import base decidable option gmap sets list strings pretty.

Set Warnings "-register-all".
Local Open Scope Z_scope.
Local Open Scope string_scope.

(** ** JavaScript values *)

Module JS.

(** The values a parsed JSON frame can hold, plus [undefined], which property
    access produces for a missing key.  Numbers are the integer-valued ones,
    [VNum n] for the numeral [n] of the frame. *)
Inductive value :=
  | VUndefined
  | VNull
  | VBool (b : bool)
  | VNum (n : Z)
  | VStr (s : string)
  | VArr (xs : list value)
  | VObj (props : list (string * value)).

(** Engine-raised exceptions: [JSON.parse] raises the first, a property read
    on [null] or [undefined] the second. *)
Inductive exn := SyntaxError | TypeError.

Inductive completion (A : Type) :=
  | Normal (a : A)
  | Throw (e : exn).
Arguments Normal {A} a.
Arguments Throw {A} e.

(** Own-property lookup in an object literal or a parsed object. *)
Fixpoint assoc (k : string) (props : list (string * value)) : value :=
  match props with
  | [] => VUndefined
  | (k', v) :: rest => if String.eqb k k' then v else assoc k rest
  end.

(** [v.k] for the property names this program reads ([type], [jsonrpc],
    [method], [result], [error], [id], [params], [name], [arguments], [uri],
    [data], [payload]): none of them exists on a string, number, boolean or
    array, so the read gives [undefined] there; on [null] and [undefined] it
    raises a TypeError. *)
Definition get (v : value) (k : string) : completion value :=
  match v with
  | VUndefined | VNull => Throw TypeError
  | VObj props => Normal (assoc k props)
  | _ => Normal VUndefined
  end.

(** ToBoolean. *)
Definition to_boolean (v : value) : bool :=
  match v with
  | VUndefined | VNull => false
  | VBool b => b
  | VNum n => negb (n =? 0)%Z
  | VStr s => match s with EmptyString => false | String _ _ => true end
  | VArr _ | VObj _ => true
  end.

(** [typeof v === 'string']. *)
Definition typeof_string (v : value) : bool :=
  match v with VStr _ => true | _ => false end.

(** [a === b] where one side is a primitive; two objects or arrays are equal
    only when they are the same reference, which a freshly parsed frame and a
    literal of the program never are. *)
Definition strict_eq (a b : value) : bool :=
  match a, b with
  | VUndefined, VUndefined => true
  | VNull, VNull => true
  | VBool x, VBool y => Bool.eqb x y
  | VNum x, VNum y => (x =? y)%Z
  | VStr x, VStr y => String.eqb x y
  | _, _ => false
  end.

(** [arr.includes(v)] for an array of string literals. *)
Definition includes (arr : list string) (v : value) : bool :=
  existsb (fun k => strict_eq (VStr k) v) arr.

Fixpoint join (sep : string) (parts : list string) : string :=
  match parts with
  | [] => EmptyString
  | [p] => p
  | p :: rest => p ++ sep ++ join sep rest
  end.

Section Numbers.
Local Close Scope string_scope.

(** The double nearest to a positive integer, ties to even: the number that
    a JSON numeral denotes once parsed. *)
Definition to_double (x : Z) : Z :=
  let bits := Z.log2 x + 1 in
  if bits <=? 53 then x
  else
    let sh := bits - 53 in
    let q := Z.shiftr x sh in
    let r := x - Z.shiftl q sh in
    let half := Z.shiftl 1 (sh - 1) in
    let q' := if r <? half then q
              else if half <? r then q + 1
              else if Z.even q then q else q + 1 in
    Z.shiftl q' sh.

Definition digits_of (x : Z) : Z := Z.of_nat (String.length (pretty x)).

(** The decimal with the fewest significant digits that still denotes the
    double [d], trying [k], [k+1], ... digits; of two such decimals the one
    nearer to [d]. *)
Fixpoint shortest (fuel : nat) (k len d : Z) : Z :=
  match fuel with
  | O => d
  | S fuel' =>
      let step := 10 ^ (len - k) in
      let lo := (d / step) * step in
      let hi := lo + step in
      let ok_lo := (0 <? lo) && (to_double lo =? d) in
      let ok_hi := to_double hi =? d in
      if ok_lo && ok_hi then
        if d - lo <? hi - d then lo
        else if hi - d <? d - lo then hi
        else if Z.even (lo / step) then lo else hi
      else if ok_lo then lo
      else if ok_hi then hi
      else shortest fuel' (k + 1) len d
  end.

Fixpoint strip_zeros (rev_digits : list ascii) : list ascii :=
  match rev_digits with
  | c :: rest => if Ascii.eqb c "0"%char then strip_zeros rest else rev_digits
  | [] => []
  end.

Definition significant (s : string) : string :=
  string_of_list_ascii (rev (strip_zeros (rev (list_ascii_of_string s)))).

(** Number::toString for a positive integer-valued number: plain decimal
    below 10^21, exponent form from there on. *)
Definition positive_to_string (x : Z) : string :=
  let d := to_double x in
  if 2 ^ 1024 <=? d then "Infinity"%string
  else
    let len := digits_of d in
    let v := shortest (Z.to_nat len) 1 len d in
    let e := digits_of v in
    if e <=? 21 then pretty v
    else
      match significant (pretty v) with
      | String c EmptyString => String c ("e+" ++ pretty (e - 1))
      | String c rest => String c ("." ++ rest ++ "e+" ++ pretty (e - 1))
      | EmptyString => EmptyString
      end%string.

Definition number_to_string (n : Z) : string :=
  if n =? 0 then "0"%string
  else if n <? 0 then ("-" ++ positive_to_string (- n))%string
  else positive_to_string n.

End Numbers.

(** Whether an object has an own property [k]. *)
Definition has_own (k : string) (props : list (string * value)) : bool :=
  existsb (fun p => String.eqb k (fst p)) props.

(** Whether ToString raises a TypeError: for an object with an own
    [toString] member (a parsed value, so not callable; [valueOf] then gives
    no primitive either), and for an array that holds such an object, since
    [join] converts every element but [null] and [undefined]. *)
Fixpoint raises (v : value) : bool :=
  match v with
  | VObj props => has_own "toString" props
  | VArr xs =>
      existsb (fun x => match x with
                        | VUndefined | VNull => false
                        | _ => raises x
                        end) xs
  | _ => false
  end.

(** ToString where it returns: what a template literal inserts for [v] when
    [raises v] is false. *)
Fixpoint to_string (v : value) : string :=
  match v with
  | VUndefined => "undefined"
  | VNull => "null"
  | VBool true => "true"
  | VBool false => "false"
  | VNum n => number_to_string n
  | VStr s => s
  | VArr xs =>
      join "," (map (fun x => match x with
                              | VUndefined | VNull => EmptyString
                              | _ => to_string x
                              end) xs)
  | VObj _ => "[object Object]"
  end.

(** [`${v}`]: the text, or the TypeError. *)
Definition template (v : value) : completion string :=
  if raises v then Throw TypeError else Normal (to_string v).

(** The outcome of [JSON.parse(data.toString())] on a received frame. *)
Inductive parse_result :=
  | Malformed
  | Parsed (v : value).

Definition JSON_parse (data : parse_result) : completion value :=
  match data with
  | Malformed => Throw SyntaxError
  | Parsed v => Normal v
  end.

End JS.

Import JS.

(** ** The server: state, effects and the handler monad *)

Module Server.

(** A socket is known by its identity only. *)
Definition WebSocket := nat.

(** The closure variable [connectionType] of [handleConnection]. *)
Inductive connection_type := unknown | extension | mcp.

(** Modelled from the spec: the [Context] class (module [@/context]) is not
    among the sources.  The Execution Context "holds the single live executor
    channel (nullable)"; the server reads it with [hasWs()] and the [ws]
    getter, writes it with the [ws] setter and clears the private field
    [_ws] on close. *)
Record Context := { _ws : option WebSocket }.

Definition hasWs (c : Context) : bool :=
  match _ws c with Some _ => true | None => false end.

(** How an awaited tool or resource promise settles; a rejection carries the
    [message] of the error it was rejected with. *)
Inductive settled :=
  | Fulfilled (v : value)
  | Rejected (message : string).

(** The [Tool] type of [@/tools/tool]: the descriptor listed by [tools/list]
    and the asynchronous handler, given by how the promise it returns settles
    for a context and arguments.  What a handler does on its way (the
    requests it forwards to the executor through the context) is the
    handler's own and not among the effects of the server; the server's
    effects record that it was called. *)
Record ToolSchema := {
  name : string;
  description : string;
  inputSchema : value;
}.

Record Tool := {
  schema : ToolSchema;
  handle : Context -> value -> settled;
}.

Record ResourceSchema := {
  uri : string;
  rfields : list (string * value);
}.

Record Resource := {
  rschema : ResourceSchema;
  read : Context -> value -> settled;
}.

Definition schema_value (t : ToolSchema) : value :=
  VObj [("name", VStr (name t)); ("description", VStr (description t));
        ("inputSchema", inputSchema t)].

Definition rschema_value (r : ResourceSchema) : value :=
  VObj (("uri", VStr (uri r)) :: rfields r).

(** The fields of [WebSocketMCPServer], and the [connectionType] variable of
    every connection ([unknown] until it is set). *)
Record state := {
  context : Context;
  tools : list Tool;
  resources : list Resource;
  extensionConnections : gset WebSocket;
  mcpConnections : gset WebSocket;
  connectionType : gmap WebSocket connection_type;
}.

Definition type_of (s : state) (ws : WebSocket) : connection_type :=
  default unknown (connectionType s !! ws).

(** What a handler does to the outside: [ws.send(JSON.stringify(msg))]
    (recorded with the object given to [JSON.stringify]), [ws.close()], and
    the calls of [tool.handle] and [resource.read]. *)
Inductive effect :=
  | Send (ws : WebSocket) (msg : value)
  | Close (ws : WebSocket)
  | Invoke (tool : string) (args : value)
  | Read (resource : string) (arg : value).

(** State, exceptions and an output log. *)
Definition M (A : Type) : Type := state -> completion A * state * list effect.

Definition ret {A} (a : A) : M A := fun s => (Normal a, s, []).

Definition bind {A B} (m : M A) (k : A -> M B) : M B :=
  fun s =>
    match m s with
    | (Normal a, s1, out1) =>
        let '(r, s2, out2) := k a s1 in (r, s2, (out1 ++ out2)%list)
    | (Throw e, s1, out1) => (Throw e, s1, out1)
    end.

Definition try_catch {A} (m : M A) (h : exn -> M A) : M A :=
  fun s =>
    match m s with
    | (Normal a, s1, out1) => (Normal a, s1, out1)
    | (Throw e, s1, out1) =>
        let '(r, s2, out2) := h e s1 in (r, s2, (out1 ++ out2)%list)
    end.

Definition lift {A} (c : completion A) : M A := fun s => (c, s, []).
Definition gets {A} (f : state -> A) : M A := fun s => (Normal (f s), s, []).
Definition modify (f : state -> state) : M unit := fun s => (Normal tt, f s, []).
Definition emit (e : effect) : M unit := fun s => (Normal tt, s, [e]).

#[local] Notation "x <- m ;; k" := (bind m (fun x => k))
  (at level 100, m at next level, right associativity).
#[local] Notation "m ;;; k" := (bind m (fun _ => k))
  (at level 100, right associativity).

Definition ws_send (ws : WebSocket) (msg : value) : M unit := emit (Send ws msg).
Definition ws_close (ws : WebSocket) : M unit := emit (Close ws).

Definition set_connectionType (ws : WebSocket) (t : connection_type) (s : state) : state :=
  {| context := context s; tools := tools s; resources := resources s;
     extensionConnections := extensionConnections s;
     mcpConnections := mcpConnections s;
     connectionType := <[ws := t]> (connectionType s) |}.

Definition add_extension (ws : WebSocket) (s : state) : state :=
  {| context := context s; tools := tools s; resources := resources s;
     extensionConnections := {[ws]} ∪ extensionConnections s;
     mcpConnections := mcpConnections s;
     connectionType := connectionType s |}.

Definition add_mcp (ws : WebSocket) (s : state) : state :=
  {| context := context s; tools := tools s; resources := resources s;
     extensionConnections := extensionConnections s;
     mcpConnections := {[ws]} ∪ mcpConnections s;
     connectionType := connectionType s |}.

Definition delete_connection (ws : WebSocket) (s : state) : state :=
  {| context := context s; tools := tools s; resources := resources s;
     extensionConnections := extensionConnections s ∖ {[ws]};
     mcpConnections := mcpConnections s ∖ {[ws]};
     connectionType := connectionType s |}.

Definition set_context_ws (w : option WebSocket) (s : state) : state :=
  {| context := {| _ws := w |}; tools := tools s; resources := resources s;
     extensionConnections := extensionConnections s;
     mcpConnections := mcpConnections s;
     connectionType := connectionType s |}.

(** ** The handlers of [WebSocketMCPServer] *)

Definition executor_keywords : list string := ["auth"; "capabilities"; "ping"].

(** [isExtensionMessage]: the truth value of
    [message.type && typeof message.type === 'string' && [...].includes(message.type)]. *)
Definition isExtensionMessage (message : value) : completion bool :=
  match get message "type" with
  | Normal t => Normal (to_boolean t && typeof_string t && includes executor_keywords t)
  | Throw e => Throw e
  end.

(** [isMCPMessage]: the truth value of
    [message.jsonrpc === '2.0' && (message.method || message.result !== undefined || message.error !== undefined)]. *)
Definition isMCPMessage (message : value) : completion bool :=
  match get message "jsonrpc", get message "method", get message "result", get message "error" with
  | Normal j, Normal m, Normal r, Normal e =>
      Normal (strict_eq j (VStr "2.0") &&
              (to_boolean m || negb (strict_eq r VUndefined) || negb (strict_eq e VUndefined)))
  | _, _, _, _ => Throw TypeError
  end.

Definition sendMCPResponse (ws : WebSocket) (id result : value) : M unit :=
  ws_send ws (VObj [("jsonrpc", VStr "2.0"); ("id", id); ("result", result)]).

Definition sendMCPError (ws : WebSocket) (id : value) (code : Z) (message : string) : M unit :=
  ws_send ws (VObj [("jsonrpc", VStr "2.0"); ("id", id);
                    ("error", VObj [("code", VNum code); ("message", VStr message)])]).

(** [handleExtensionMessage]; [now] is what [Date.now()] returns. *)
Definition handleExtensionMessage (now : Z) (ws : WebSocket) (message : value) : M unit :=
  t <- lift (get message "type") ;;
  if strict_eq t (VStr "auth") then
    ws_send ws (VObj [("type", VStr "auth_success")])
  else if strict_eq t (VStr "capabilities") then
    ws_send ws (VObj [("type", VStr "capabilities_received")])
  else if strict_eq t (VStr "ping") then
    ws_send ws (VObj [("type", VStr "pong"); ("timestamp", VNum now)])
  else ret tt.

Definition handleToolsList (ws : WebSocket) (message : value) : M unit :=
  ts <- gets tools ;;
  id <- lift (get message "id") ;;
  sendMCPResponse ws id (VObj [("tools", VArr (map (fun t => schema_value (schema t)) ts))]).

(** [tools.find(t => t.schema.name === name)]. *)
Definition find_tool (ts : list Tool) (n : value) : option Tool :=
  List.find (fun t => strict_eq (VStr (name (schema t))) n) ts.

Definition handleToolCall (ws : WebSocket) (message : value) : M unit :=
  params <- lift (get message "params") ;;
  n <- lift (get params "name") ;;
  args <- lift (get params "arguments") ;;
  ts <- gets tools ;;
  match find_tool ts n with
  | None =>
      id <- lift (get message "id") ;;
      text <- lift (template n) ;;
      sendMCPError ws id (-32602) ("Tool not found: " ++ text)
  | Some tool =>
      ctx <- gets context ;;
      emit (Invoke (name (schema tool)) args) ;;;
      match handle tool ctx args with
      | Fulfilled result =>
          id <- lift (get message "id") ;;
          sendMCPResponse ws id result
      | Rejected msg =>
          id <- lift (get message "id") ;;
          sendMCPError ws id (-32603) ("Tool execution failed: " ++ msg)
      end
  end.

Definition handleResourcesList (ws : WebSocket) (message : value) : M unit :=
  rs <- gets resources ;;
  id <- lift (get message "id") ;;
  sendMCPResponse ws id (VObj [("resources", VArr (map (fun r => rschema_value (rschema r)) rs))]).

Definition find_resource (rs : list Resource) (u : value) : option Resource :=
  List.find (fun r => strict_eq (VStr (uri (rschema r))) u) rs.

Definition handleResourceRead (ws : WebSocket) (message : value) : M unit :=
  params <- lift (get message "params") ;;
  u <- lift (get params "uri") ;;
  rs <- gets resources ;;
  match find_resource rs u with
  | None =>
      id <- lift (get message "id") ;;
      text <- lift (template u) ;;
      sendMCPError ws id (-32602) ("Resource not found: " ++ text)
  | Some resource =>
      ctx <- gets context ;;
      emit (Read (uri (rschema resource)) u) ;;;
      match read resource ctx u with
      | Fulfilled contents =>
          id <- lift (get message "id") ;;
          sendMCPResponse ws id (VObj [("contents", contents)])
      | Rejected msg =>
          id <- lift (get message "id") ;;
          sendMCPError ws id (-32603) ("Resource read failed: " ++ msg)
      end
  end.

(** [handleMCPMessage]: the first read of [message.method] (in the log call)
    is outside the [try]. *)
Definition handleMCPMessage (ws : WebSocket) (message : value) : M unit :=
  m <- lift (get message "method") ;;
  try_catch
    (if strict_eq m (VStr "tools/list") then handleToolsList ws message
     else if strict_eq m (VStr "tools/call") then handleToolCall ws message
     else if strict_eq m (VStr "resources/list") then handleResourcesList ws message
     else if strict_eq m (VStr "resources/read") then handleResourceRead ws message
     else
       id <- lift (get message "id") ;;
       text <- lift (template m) ;;
       sendMCPError ws id (-32601) ("Method not found: " ++ text))
    (fun _ =>
       id <- lift (get message "id") ;;
       sendMCPError ws id (-32603) "Internal error").

Definition parse_error : value :=
  VObj [("error", VObj [("code", VNum (-32700)); ("message", VStr "Parse error")])].

(** The type detection on a message of a connection that is still [unknown]. *)
Definition classify (ws : WebSocket) (message : value) : M unit :=
  isExt <- lift (isExtensionMessage message) ;;
  if isExt then
    modify (set_connectionType ws extension) ;;;
    modify (add_extension ws) ;;;
    ctx <- gets context ;;
    (if hasWs ctx then
       match _ws ctx with
       | Some old => ws_close old
       | None => ret tt
       end
     else ret tt) ;;;
    modify (set_context_ws (Some ws))
  else
    isMcp <- lift (isMCPMessage message) ;;
    if isMcp then
      modify (set_connectionType ws mcp) ;;;
      modify (add_mcp ws)
    else ret tt.

(** The ['message'] listener of [handleConnection]. *)
Definition on_message (now : Z) (ws : WebSocket) (data : parse_result) : M unit :=
  try_catch
    (message <- lift (JSON_parse data) ;;
     t <- gets (fun s => type_of s ws) ;;
     match t with
     | unknown => classify ws message
     | _ => ret tt
     end ;;;
     t' <- gets (fun s => type_of s ws) ;;
     match t' with
     | extension => handleExtensionMessage now ws message
     | mcp => handleMCPMessage ws message
     | unknown => ret tt
     end)
    (fun _ => ws_send ws parse_error).

(** The ['close'] listener of [handleConnection]. *)
Definition on_close (ws : WebSocket) : M unit :=
  modify (delete_connection ws) ;;;
  ctx <- gets context ;;
  if hasWs ctx && bool_decide (_ws ctx = Some ws)
  then modify (set_context_ws None)
  else ret tt.

(** [new WebSocketMCPServer(tools, resources)]. *)
Definition new (ts : list Tool) (rs : list Resource) : state :=
  {| context := {| _ws := None |}; tools := ts; resources := rs;
     extensionConnections := ∅; mcpConnections := ∅; connectionType := ∅ |}.

(** The events of the server's sockets, and a run over a sequence of them. *)
Inductive event :=
  | Message (now : Z) (ws : WebSocket) (data : parse_result)
  | Closed (ws : WebSocket).

Definition step (ev : event) : M unit :=
  match ev with
  | Message now ws data => on_message now ws data
  | Closed ws => on_close ws
  end.

Definition exec (m : M unit) (s : state) : state * list effect :=
  let '(_, s', out) := m s in (s', out).

Fixpoint run (evs : list event) (s : state) : state * list effect :=
  match evs with
  | [] => (s, [])
  | ev :: rest =>
      let '(s1, out1) := exec (step ev) s in
      let '(s2, out2) := run rest s1 in
      (s2, (out1 ++ out2)%list)
  end.

(** A frame on a controller connection, or the frame that makes the
    connection one: the frames that [handleMCPMessage] receives. *)
Definition controller_frame (s : state) (ws : WebSocket) (message : value) : Prop :=
  type_of s ws = mcp
  \/ (type_of s ws = unknown
      /\ isExtensionMessage message = Normal false
      /\ isMCPMessage message = Normal true).

(** Exclusivity of the executor channel over a history: every connection
    classified as an executor is the current channel, or the server has
    closed it, or it has closed by itself. *)
Definition exclusive (s : state) (out : list effect) (evs : list event) : Prop :=
  forall ws, type_of s ws = extension ->
    _ws (context s) = Some ws \/ In (Close ws) out \/ In (Closed ws) evs.

End Server.

(** ** The zod declarations of the tools (the types module) *)

Module Zod.

Inductive ztype :=
  | ZString
  | ZNumber
  | ZBoolean
  | ZEnum (options : list string).

(** One key of a [z.object({...})]; [optional] is [.optional()]. *)
Record field := {
  key : string;
  type : ztype;
  optional : bool;
}.

Record tool_decl := {
  zname : string;
  zdescription : string;
  arguments : list field;
}.

Definition accepts_type (t : ztype) (v : value) : bool :=
  match t, v with
  | ZString, VStr _ => true
  | ZNumber, VNum _ => true
  | ZBoolean, VBool _ => true
  | ZEnum options, VStr s => existsb (String.eqb s) options
  | _, _ => false
  end.

Definition accepts_field (props : list (string * value)) (f : field) : bool :=
  match assoc (key f) props with
  | VUndefined => optional f
  | v => accepts_type (type f) v
  end.

(** Whether [z.object(fields).parse(args)] succeeds: [args] is an object,
    every required key holds a value of its type, every optional key is
    absent or holds one; other keys are ignored. *)
Definition accepts (fields : list field) (args : value) : bool :=
  match args with
  | VObj props => forallb (accepts_field props) fields
  | _ => false
  end.

Definition req (k : string) (t : ztype) : field := {| key := k; type := t; optional := false |}.
Definition opt (k : string) (t : ztype) : field := {| key := k; type := t; optional := true |}.

Definition NavigateTool : tool_decl :=
  {| zname := "navigate";
     zdescription := "Navigate to a URL or use browser history";
     arguments := [opt "url" ZString; opt "direction" (ZEnum ["back"; "forward"; "reload"])] |}.

Definition GoBackTool : tool_decl :=
  {| zname := "go_back";
     zdescription := "Navigate back in browser history";
     arguments := [] |}.

Definition GoForwardTool : tool_decl :=
  {| zname := "go_forward";
     zdescription := "Navigate forward in browser history";
     arguments := [] |}.

Definition ClickTool : tool_decl :=
  {| zname := "click";
     zdescription := "Click on an element on the page";
     arguments := [req "element" ZString] |}.

Definition TypeTool : tool_decl :=
  {| zname := "type";
     zdescription := "Type text into an input field";
     arguments := [req "element" ZString; req "text" ZString; opt "clear" ZBoolean] |}.

Definition HoverTool : tool_decl :=
  {| zname := "hover";
     zdescription := "Hover over an element";
     arguments := [req "element" ZString] |}.

Definition SelectOptionTool : tool_decl :=
  {| zname := "select_option";
     zdescription := "Select an option from a dropdown";
     arguments := [req "element" ZString; opt "value" ZString; opt "text" ZString;
                   opt "index" ZNumber] |}.

Definition DragTool : tool_decl :=
  {| zname := "drag";
     zdescription := "Drag an element to another location";
     arguments := [req "startElement" ZString; req "endElement" ZString] |}.

Definition SnapshotTool : tool_decl :=
  {| zname := "snapshot";
     zdescription := "Take a snapshot of the current page structure";
     arguments := [] |}.

Definition ScreenshotTool : tool_decl :=
  {| zname := "screenshot";
     zdescription := "Take a screenshot of the current page";
     arguments := [opt "fullPage" ZBoolean] |}.

Definition GetConsoleLogsTool : tool_decl :=
  {| zname := "get_console_logs";
     zdescription := "Get console logs from the current page";
     arguments := [opt "level" (ZEnum ["log"; "info"; "warn"; "error"])] |}.

Definition PressKeyTool : tool_decl :=
  {| zname := "press_key";
     zdescription := "Press a keyboard key";
     arguments := [req "key" ZString] |}.

Definition WaitTool : tool_decl :=
  {| zname := "wait";
     zdescription := "Wait for a specified amount of time";
     arguments := [req "milliseconds" ZNumber] |}.

End Zod.

(** ** The static tool list of the entry point *)

Module Registry.
Import Server Zod.

Section Tools.

(** The handlers of the tool modules and the conversion of a zod object to
    the JSON schema that [tools/list] shows. *)
Variable handler : string -> Context -> value -> settled.
Variable zodToJsonSchema : list field -> value.

(** Modelled from the spec: the tool modules ([@/tools/common],
    [@/tools/custom], [@/tools/snapshot]) are not among the sources.  The
    spec lists the exposed tool surface as "navigate, go_back, go_forward,
    click, hover, type, select_option, snapshot, screenshot,
    get_console_logs, press_key, wait"; each tool is a descriptor (name,
    input schema, description) plus a handler, and takes the three from the
    zod declaration of that name. *)
Definition tool_of (d : tool_decl) : Tool :=
  {| schema := {| name := zname d; description := zdescription d;
                  inputSchema := zodToJsonSchema (arguments d) |};
     handle := handler (zname d) |}.

Definition commonTools : list Tool := [tool_of PressKeyTool; tool_of WaitTool].

Definition customTools : list Tool := [tool_of GetConsoleLogsTool; tool_of ScreenshotTool].

Definition snapshotTools : list Tool :=
  ([tool_of NavigateTool; tool_of GoBackTool; tool_of GoForwardTool;
   tool_of SnapshotTool; tool_of ClickTool; tool_of HoverTool;
   tool_of TypeTool; tool_of SelectOptionTool] ++ commonTools ++ customTools)%list.

Definition resources : list Resource := [].

(** [new WebSocketMCPServer(snapshotTools, resources)] of [startServer]. *)
Definition startServer : state := new snapshotTools resources.

End Tools.

End Registry.

(** ** Configuration constants *)

Module mcpConfig.

Definition errors_noConnectedTab : string := "No connected tab available".
Definition websocket_port : Z := 9234.
Definition websocket_timeout : Z := 30000.
Definition websocket_reconnectAttempts : Z := 5.
Definition websocket_reconnectDelay : Z := 1000.
Definition defaultWsPort : Z := 9234.

End mcpConfig.

(** ** The socket message sender *)

Module Sender.
Import Server.

(** A promise made by [sendSocketMessage]; it settles once. *)
Inductive promise :=
  | Pending
  | Resolved (v : value)
  | Failed (message : string).

(** A running [setTimeout]: its handle, the time it is due, and the promise
    its callback rejects. *)
Record timer := {
  handle_id : nat;
  due : Z;
  rejects : nat;
}.

(** A [handleMessage] closure registered with [ws.on('message', ...)]: the
    socket, and the [messageId], [timeout] and [resolve] it captured. *)
Record listener := {
  socket : WebSocket;
  messageId : string;
  timeout : nat;
  resolves : nat;
}.

(** The event loop as the sender sees it: the clock (ms), the running timers,
    the registered listeners in registration order, the promises, the frames
    written so far, and the sockets whose [send] throws (with the message of
    the error). *)
Record state := {
  clock : Z;
  timers : list timer;
  listeners : list listener;
  promises : gmap nat promise;
  next : nat;
  sent : list (WebSocket * value);
  failing : gmap WebSocket string;
}.

Definition init : state :=
  {| clock := 0; timers := []; listeners := []; promises := ∅; next := 0%nat;
     sent := []; failing := ∅ |}.

(** [resolve] and [reject] of a promise: no effect once it is settled. *)
Definition settle (p : nat) (r : promise) (ps : gmap nat promise) : gmap nat promise :=
  match ps !! p with
  | Some Pending => <[p := r]> ps
  | _ => ps
  end.

Definition clearTimeout (h : nat) (ts : list timer) : list timer :=
  List.filter (fun t => negb (Nat.eqb (handle_id t) h)) ts.

Definition same_listener (a b : listener) : bool :=
  Nat.eqb (resolves a) (resolves b).

(** [ws.off('message', handleMessage)]: every closure is a distinct function,
    known here by the promise it resolves. *)
Definition off (l : listener) (ls : list listener) : list listener :=
  List.filter (fun l' => negb (same_listener l l')) ls.

(** The largest delay [setTimeout] takes as given. *)
Definition TIMEOUT_MAX : Z := 2147483647.

(** The delay [setTimeout] uses: a delay above [TIMEOUT_MAX] is replaced by
    1 ms.  (So is one below 1 ms; such a timer is due here as soon as the
    timers next run.) *)
Definition setTimeout_delay (ms : Z) : Z :=
  if (ms <=? TIMEOUT_MAX)%Z then ms else 1.

(** [sendSocketMessage(type, payload, options)] of
    [createSocketMessageSender(ws)]; [timeoutMs] is [options.timeoutMs]
    ([None] when it is not given) and [mid] is the id that
    [Math.random().toString(36).substr(2, 9)] produced.  Returns the promise. *)
Definition sendSocketMessage (ws : WebSocket) (type : string) (payload : value)
    (timeoutMs : option Z) (mid : string) (st : state) : nat * state :=
  let timeoutMs := default 30000 timeoutMs in
  let p := next st in
  let tm := {| handle_id := p; due := clock st + setTimeout_delay timeoutMs; rejects := p |} in
  let message := VObj [("id", VStr mid); ("type", VStr type); ("payload", payload)] in
  match failing st !! ws with
  | None =>
      (p, {| clock := clock st;
             timers := (timers st ++ [tm])%list;
             listeners := (listeners st ++
                           [{| socket := ws; messageId := mid; timeout := p; resolves := p |}])%list;
             promises := <[p := Pending]> (promises st);
             next := S p;
             sent := (sent st ++ [(ws, message)])%list;
             failing := failing st |})
  | Some err =>
      (p, {| clock := clock st;
             timers := clearTimeout p (timers st ++ [tm])%list;
             listeners := listeners st;
             promises := settle p (Failed err) (<[p := Pending]> (promises st));
             next := S p;
             sent := sent st;
             failing := failing st |})
  end.

(** One call of a [handleMessage] closure on a received frame. *)
Definition handleMessage (l : listener) (data : parse_result) (st : state) : state :=
  match JSON_parse data with
  | Throw _ => st
  | Normal response =>
      match get response "id", get response "payload" with
      | Normal i, Normal payload =>
          if strict_eq i (VStr (messageId l)) then
            {| clock := clock st;
               timers := clearTimeout (timeout l) (timers st);
               listeners := off l (listeners st);
               promises := settle (resolves l) (Resolved payload) (promises st);
               next := next st; sent := sent st; failing := failing st |}
          else st
      | _, _ => st
      end
  end.

(** A frame arrives on [ws]: the listeners registered on it run in order. *)
Definition deliver (ws : WebSocket) (data : parse_result) (st : state) : state :=
  fold_left (fun acc l => handleMessage l data acc)
            (List.filter (fun l => Nat.eqb (socket l) ws) (listeners st)) st.

(** The callback of a timer: [reject(new Error('Message timeout'))]. *)
Definition fire (t : timer) (ps : gmap nat promise) : gmap nat promise :=
  settle (rejects t) (Failed "Message timeout") ps.

(** The clock advances by [dt] ms and the timers that are due run. *)
Definition advance (dt : Z) (st : state) : state :=
  let now := clock st + dt in
  {| clock := now;
     timers := List.filter (fun t => negb (due t <=? now)%Z) (timers st);
     listeners := listeners st;
     promises := fold_left (fun ps t => fire t ps)
                           (List.filter (fun t => (due t <=? now)%Z) (timers st)) (promises st);
     next := next st; sent := sent st; failing := failing st |}.

(** Whether a pending correlation entry for [mid] is registered on [ws]. *)
Definition pending_on (ws : WebSocket) (mid : string) (st : state) : bool :=
  existsb (fun l => Nat.eqb (socket l) ws && String.eqb (messageId l) mid) (listeners st).

(** Modelled from the spec: the forwarding primitive [sendToExecutor] of the
    Execution Context (the [Context] class is not among the sources).  It
    "generates a fresh correlation ID, serializes {id, type, payload} onto
    the current executor channel, registers a Pending Request with the given
    timeout (default 30000 ms), and returns a deferred result"; "if no
    executor channel is current at call time, fail immediately (kind: no
    executor connected) without registering anything".  The failure carries
    the message [mcpConfig.errors.noConnectedTab]. *)
Definition sendToExecutor (c : Context) (type : string) (payload : value)
    (timeoutMs : option Z) (mid : string) (st : state) : nat * state :=
  match _ws c with
  | Some ws => sendSocketMessage ws type payload timeoutMs mid st
  | None =>
      let p := next st in
      (p, {| clock := clock st; timers := timers st; listeners := listeners st;
             promises := <[p := Failed mcpConfig.errors_noConnectedTab]> (promises st);
             next := S p; sent := sent st; failing := failing st |})
  end.

End Sender.

(** ** The classification rule as the specification words it *)

Module Spec.
Import Server.

Definition present (k : string) (props : list (string * value)) : bool :=
  negb (strict_eq (assoc k props) VUndefined).

Definition number_or_string (v : value) : bool :=
  match v with VNum _ | VStr _ => true | _ => false end.

Definition is_object (v : value) : bool :=
  match v with VObj _ => true | _ => false end.

(** "[type] is one of the fixed executor-protocol keywords (auth,
    capabilities, ping)". *)
Definition executor_keyword (v : value) : bool :=
  match v with
  | VObj props => includes executor_keywords (assoc "type" props)
  | _ => false
  end.

(** The controller request of the external interface:
    [{"protocolVersion":"2.0","id":<number|string>,"method":<string>,"params":<object>}]. *)
Definition controller_request (v : value) : bool :=
  match v with
  | VObj props =>
      strict_eq (assoc "protocolVersion" props) (VStr "2.0")
      && number_or_string (assoc "id" props)
      && typeof_string (assoc "method" props)
      && is_object (assoc "params" props)
  | _ => false
  end.

(** "Request-shaped if [method] is present; response-shaped if [result] or
    [error] is present". *)
Definition request_or_response_shaped (v : value) : bool :=
  match v with
  | VObj props =>
      controller_request v || present "result" props || present "error" props
  | _ => false
  end.

(** The controller envelope predicate: "jsonrpc equal to 2.0 with method,
    result, or error present". *)
Definition controller_envelope (v : value) : bool :=
  match v with
  | VObj props =>
      strict_eq (assoc "jsonrpc" props) (VStr "2.0")
      && (present "method" props || present "result" props || present "error" props)
  | _ => false
  end.

End Spec.

(** ** Concrete servers, frames and sender states *)

Module Examples.
Import Server Zod.

(** A handler that fulfils with the arguments it was given. *)
Definition echo_handler (tool : string) (c : Context) (args : value) : settled :=
  Fulfilled args.

Definition type_schema (t : ztype) : value :=
  match t with
  | ZString => VObj [("type", VStr "string")]
  | ZNumber => VObj [("type", VStr "number")]
  | ZBoolean => VObj [("type", VStr "boolean")]
  | ZEnum options => VObj [("type", VStr "string"); ("enum", VArr (map VStr options))]
  end.

(** A JSON schema for a zod object: its properties and the required keys. *)
Definition object_schema (fields : list field) : value :=
  VObj [("type", VStr "object");
        ("properties", VObj (map (fun f => (key f, type_schema (type f))) fields));
        ("required", VArr (map (fun f => VStr (key f))
                               (List.filter (fun f => negb (optional f)) fields)))].

(** A freshly started server with the static tool list. *)
Definition server0 : state := Registry.startServer echo_handler object_schema.

Definition ws1 : WebSocket := 1%nat.
Definition ws2 : WebSocket := 2%nat.

(** The request of the external interface, as the specification writes it. *)
Definition protocolVersion_request : value :=
  VObj [("protocolVersion", VStr "2.0"); ("id", VNum 1);
        ("method", VStr "tools/list"); ("params", VObj [])].

(** The same request under the field name the code reads, with an empty
    method. *)
Definition empty_method_request : value :=
  VObj [("jsonrpc", VStr "2.0"); ("id", VNum 1);
        ("method", VStr EmptyString); ("params", VObj [])].

Definition tools_list_request : value :=
  VObj [("jsonrpc", VStr "2.0"); ("id", VNum 1);
        ("method", VStr "tools/list"); ("params", VObj [])].

(** [tools/call] of [click] without the required [element]. *)
Definition click_without_element : value :=
  VObj [("jsonrpc", VStr "2.0"); ("id", VNum 7); ("method", VStr "tools/call");
        ("params", VObj [("name", VStr "click"); ("arguments", VObj [])])].



Definition ping : value := VObj [("type", VStr "ping")].
Definition auth : value := VObj [("type", VStr "auth"); ("token", VStr "t")].

(** A server on which [ws1] is the current executor channel. *)
Definition server_with_executor : state :=
  fst (exec (on_message 0 ws1 (Parsed ping)) server0).

(** A server on which [ws1] is a classified controller connection. *)
Definition server_with_controller : state :=
  fst (exec (on_message 0 ws1 (Parsed tools_list_request)) server0).

(** A frame that parses and is neither an executor nor a controller message. *)
Definition stray : value := VObj [("hello", VStr "world")].

(** A forwarded click on [ws1] with the default timeout, from the initial
    sender state; and the response to it. *)
Definition request_id : string := "k3x9q0zfa".

Definition pending_request : nat * Sender.state :=
  Sender.sendSocketMessage ws1 "browser_click" (VObj [("element", VStr "#submit")])
    None request_id Sender.init.

Definition late_response : value :=
  VObj [("id", VStr request_id); ("payload", VObj [("ok", VBool true)])].

End Examples.

(** ** Connection statistics and what a run keeps *)

Module Stats.
Import Server.

(** The object that [getConnectionStats] returns. *)
Record ConnectionStats := {
  stat_extensionConnections : nat;
  stat_mcpConnections : nat;
  totalConnections : nat;
}.

Definition getConnectionStats (s : state) : ConnectionStats :=
  {| stat_extensionConnections := size (extensionConnections s);
     stat_mcpConnections := size (mcpConnections s);
     totalConnections := (size (extensionConnections s) + size (mcpConnections s))%nat |}.

(** The members of each role set have that role, and the current executor
    channel is a member of the executor set. *)
Definition roles_consistent (s : state) : Prop :=
  (forall ws, ws ∈ extensionConnections s -> type_of s ws = extension)
  /\ (forall ws, ws ∈ mcpConnections s -> type_of s ws = mcp)
  /\ (forall ws, _ws (context s) = Some ws -> ws ∈ extensionConnections s).

(** Whether an effect is the call of a tool handler or of a resource reader:
    code outside this server, which is handed the context and may write to
    the executor socket through it. *)
Definition calls_out (e : effect) : bool :=
  match e with
  | Invoke _ _ | Read _ _ => true
  | Send _ _ | Close _ => false
  end.

(** An effect of a handler that answers [ws]: a frame written to [ws], or a
    call of a tool handler or resource reader; never a [close]. *)
Definition reply_effect (ws : WebSocket) (e : effect) : Prop :=
  match e with
  | Send w _ => w = ws
  | Close _ => False
  | Invoke _ _ | Read _ _ => True
  end.

End Stats.

(** ** The methods of the controller protocol *)

Module Methods.

(** The cases of the [switch] in [handleMCPMessage]. *)
Definition known_methods : list string :=
  ["tools/list"; "tools/call"; "resources/list"; "resources/read"].

(** The methods that read [message.params]. *)
Definition methods_with_params : list string := ["tools/call"; "resources/read"].

End Methods.

(** ** Runs of the sender's event loop *)

Module Loop.
Import Server Sender.

(** What happens to the sender between two calls: a frame arrives on a
    socket, or time passes. *)
Inductive event :=
  | Deliver (ws : WebSocket) (data : parse_result)
  | Advance (dt : Z).

Definition step (ev : event) (st : Sender.state) : Sender.state :=
  match ev with
  | Deliver ws data => deliver ws data st
  | Advance dt => advance dt st
  end.

Definition run (evs : list event) (st : Sender.state) : Sender.state :=
  fold_left (fun acc ev => step ev acc) evs st.

(** The ids handed out so far are below [next]: no timer, listener or
    promise refers to the id of the next request. *)
Definition fresh_next (st : Sender.state) : Prop :=
  Forall (fun t => rejects t <> next st /\ handle_id t <> next st) (timers st)
  /\ Forall (fun l => resolves l <> next st) (listeners st).

End Loop.

(** ** The test client: requests with a pending table *)

Module Client.

(** How the promise of a request stands. *)
Inductive outcome :=
  | Waiting
  | Answered (message : value)
  | Refused (error : string).

(** A running [setTimeout] of [sendRequest]: when it is due, and the
    [messageId] and [method] its callback captured. *)
Record timer := {
  due : Z;
  request : nat;
  method : string;
}.

(** The fields of [MCPClientTest] ([pendingRequests] by its keys: the entry
    of a key holds the [resolve] and [reject] of that request's promise),
    the promises of the requests by id, the running timers, the clock (ms)
    and the frames written to the socket. *)
Record state := {
  connected : bool;
  messageId : nat;
  pendingRequests : gset nat;
  outcomes : gmap nat outcome;
  timers : list timer;
  clock : Z;
  sent : list value;
}.

(** The constructor. *)
Definition init : state :=
  {| connected := false; messageId := 0; pendingRequests := ∅; outcomes := ∅;
     timers := []; clock := 0; sent := [] |}.

(** The ['open'] and ['close'] listeners of [connect]. *)
Definition on_open (st : state) : state :=
  {| connected := true; messageId := messageId st;
     pendingRequests := pendingRequests st; outcomes := outcomes st;
     timers := timers st; clock := clock st; sent := sent st |}.

Definition on_close (st : state) : state :=
  {| connected := false; messageId := messageId st;
     pendingRequests := pendingRequests st; outcomes := outcomes st;
     timers := timers st; clock := clock st; sent := sent st |}.

(** What [sendRequest] returns: a promise already rejected with an error, or
    the promise of the request with the given id. *)
Inductive sent_request :=
  | NotSent (error : string)
  | Requested (id : nat).

(** [sendRequest(method, params)]; [params] is [None] when the argument is
    left out (it then defaults to [{}]).  [connected] holds only between the
    ['open'] and the ['close'] of the socket, when [send] does not throw. *)
Definition sendRequest (m : string) (params : option value) (st : state)
    : sent_request * state :=
  if negb (connected st) then (NotSent "Not connected to server", st)
  else
    let id := S (messageId st) in
    let message :=
      VObj [("jsonrpc", VStr "2.0"); ("id", VNum (Z.of_nat id)); ("method", VStr m);
            ("params", default (VObj []) params)] in
    (Requested id,
     {| connected := connected st; messageId := id;
        pendingRequests := {[id]} ∪ pendingRequests st;
        outcomes := <[id := Waiting]> (outcomes st);
        timers := (timers st ++ [{| due := clock st + 30000; request := id; method := m |}])%list;
        clock := clock st;
        sent := (sent st ++ [message])%list |}).

(** The key of [pendingRequests] that a received [id] can equal: the keys
    are the numbers 1, 2, ... *)
Definition key_of (id : value) : option nat :=
  match id with
  | VNum n => if (0 <=? n)%Z then Some (Z.to_nat n) else None
  | _ => None
  end.

(** [message.id && this.pendingRequests.has(message.id)]. *)
Definition is_pending (id : value) (st : state) : option nat :=
  if to_boolean id then
    match key_of id with
    | Some k => if bool_decide (k ∈ pendingRequests st) then Some k else None
    | None => None
    end
  else None.

(** [resolve] and [reject]: no effect on a settled promise. *)
Definition settle (k : nat) (o : outcome) (os : gmap nat outcome) : gmap nat outcome :=
  match os !! k with
  | Some Waiting => <[k := o]> os
  | _ => os
  end.

(** The ['message'] listener of [setupMessageHandlers]. *)
Definition on_message (data : parse_result) (st : state) : state :=
  match JSON_parse data with
  | Throw _ => st
  | Normal message =>
      match get message "id" with
      | Throw _ => st
      | Normal id =>
          match is_pending id st with
          | Some k =>
              {| connected := connected st; messageId := messageId st;
                 pendingRequests := pendingRequests st ∖ {[k]};
                 outcomes := settle k (Answered message) (outcomes st);
                 timers := timers st; clock := clock st; sent := sent st |}
          | None => st
          end
      end
  end.

(** The callback of a timer. *)
Definition fire (t : timer) (st : state) : state :=
  if bool_decide (request t ∈ pendingRequests st) then
    {| connected := connected st; messageId := messageId st;
       pendingRequests := pendingRequests st ∖ {[request t]};
       outcomes := settle (request t) (Refused ("Request timeout for " ++ method t))
                     (outcomes st);
       timers := timers st; clock := clock st; sent := sent st |}
  else st.

(** The clock advances by [dt] ms and the timers that are due run. *)
Definition advance (dt : Z) (st : state) : state :=
  let now := clock st + dt in
  fold_left (fun acc t => fire t acc)
    (List.filter (fun t => (due t <=? now)%Z) (timers st))
    {| connected := connected st; messageId := messageId st;
       pendingRequests := pendingRequests st; outcomes := outcomes st;
       timers := List.filter (fun t => negb (due t <=? now)%Z) (timers st);
       clock := now; sent := sent st |}.

Inductive event :=
  | Open
  | Close
  | Request (m : string) (params : option value)
  | Receive (data : parse_result)
  | Advance (dt : Z).

Definition step (ev : event) (st : state) : state :=
  match ev with
  | Open => on_open st
  | Close => on_close st
  | Request m params => snd (sendRequest m params st)
  | Receive data => on_message data st
  | Advance dt => advance dt st
  end.

Definition run (evs : list event) (st : state) : state :=
  fold_left (fun acc ev => step ev acc) evs st.

(** The pending table holds exactly the requests whose promise is not
    settled, and no id above the counter is in use. *)
Definition consistent (st : state) : Prop :=
  (forall k, k ∈ pendingRequests st <-> outcomes st !! k = Some Waiting)
  /\ (forall k, is_Some (outcomes st !! k) -> (1 <= k <= messageId st)%nat)
  /\ Forall (fun t => (request t <= messageId st)%nat) (timers st).

End Client.

(** ** The message types of the socket protocol *)

Module Messaging.

(** The keys of [SocketMessageMap]: the types a tool may forward. *)
Definition SocketMessageMap : list string :=
  ["browser_click"; "browser_type"; "browser_hover"; "browser_navigate";
   "browser_snapshot"; "browser_screenshot"; "browser_console_logs";
   "browser_press_key"; "browser_select_option"].

End Messaging.

(** ** The background service of the extension: its socket to the server *)

Module Background.

Definition Socket := nat.

Inductive ReadyState := CONNECTING | OPEN | CLOSING | CLOSED.

(** The timers the service starts: the 10 s timeout of the [connect] call
    that created a socket, and the delayed reconnect of
    [handleDisconnection]. *)
Inductive callback :=
  | ConnectTimeout (s : Socket)
  | Reconnect.

(** What the service does to the outside: it creates a socket, writes to or
    closes one, starts or clears a timer, resolves the promise that the
    [connect] call of a socket returned, broadcasts its status to the
    extension, or sends a message to a tab. *)
Inductive effect :=
  | NewWebSocket (s : Socket) (url : string)
  | WsSend (s : Socket) (msg : value)
  | WsClose (s : Socket)
  | SetTimeout (delay : Z) (cb : callback)
  | ClearTimeout (cb : callback)
  | Resolve (s : Socket) (result : value)
  | Broadcast (msg : value)
  | TabSend (tab : value) (msg : value).

(** The fields of [MCPBackgroundService] that the socket code uses
    ([connectedTabId] is [null] or a tab id), and the sockets created so
    far with their [readyState]. *)
Record state := {
  ws : option Socket;
  connectedTabId : value;
  connectionStatus : bool;
  settings_port : value;
  settings_token : value;
  reconnectAttempts : Z;
  readyState : gmap Socket ReadyState;
  next_socket : Socket;
}.

(** Set in the constructor and never assigned again. *)
Definition maxReconnectAttempts : Z := 5.
Definition reconnectDelay : Z := 1000.

(** The constructor, before the settings are loaded. *)
Definition init : state :=
  {| ws := None; connectedTabId := VNull; connectionStatus := false;
     settings_port := VNum 9234; settings_token := VStr EmptyString;
     reconnectAttempts := 0; readyState := ∅; next_socket := 0%nat |}.

Definition with_status (b : bool) (st : state) : state :=
  {| ws := ws st; connectedTabId := connectedTabId st; connectionStatus := b;
     settings_port := settings_port st; settings_token := settings_token st;
     reconnectAttempts := reconnectAttempts st; readyState := readyState st;
     next_socket := next_socket st |}.

Definition with_attempts (n : Z) (st : state) : state :=
  {| ws := ws st; connectedTabId := connectedTabId st;
     connectionStatus := connectionStatus st;
     settings_port := settings_port st; settings_token := settings_token st;
     reconnectAttempts := n; readyState := readyState st;
     next_socket := next_socket st |}.

Definition with_readyState (s : Socket) (r : ReadyState) (st : state) : state :=
  {| ws := ws st; connectedTabId := connectedTabId st;
     connectionStatus := connectionStatus st;
     settings_port := settings_port st; settings_token := settings_token st;
     reconnectAttempts := reconnectAttempts st;
     readyState := <[s := r]> (readyState st);
     next_socket := next_socket st |}.

(** [broadcastStatusChange]. *)
Definition broadcastStatusChange (st : state) : effect :=
  Broadcast (VObj [("type", VStr "CONNECTION_STATUS_CHANGED");
                   ("connected", VBool (connectionStatus st));
                   ("port", settings_port st);
                   ("tabId", connectedTabId st)]).

(** [this.ws.send(JSON.stringify(msg))]: a TypeError when [this.ws] is
    [null], an exception while the socket is still connecting, a frame when
    it is open, nothing once it is closing or closed. *)
Definition ws_send (msg : value) (st : state) : option (list effect) :=
  match ws st with
  | None => None
  | Some s =>
      match readyState st !! s with
      | Some OPEN => Some [WsSend s msg]
      | Some CLOSING | Some CLOSED => Some []
      | Some CONNECTING | None => None
      end
  end.

(** [this.ws && this.ws.readyState === WebSocket.OPEN]. *)
Definition ws_is_open (st : state) : option Socket :=
  match ws st with
  | Some s => match readyState st !! s with Some OPEN => Some s | _ => None end
  | None => None
  end.

(** What [connect] returns: a result at once, or the promise that the
    events of the new socket resolve. *)
Inductive connecting :=
  | Refused (result : value)
  | Opening (s : Socket).

Definition failure (error : string) : value :=
  VObj [("success", VBool false); ("error", VStr error)].

(** [connect(tabId)] up to the promise it returns.  The port is one for
    which [new WebSocket] accepts the URL. *)
Definition connect (tabId : value) (st : state) : connecting * state * list effect :=
  if connectionStatus st then (Refused (failure "Already connected"), st, [])
  else
    let s := next_socket st in
    (Opening s,
     {| ws := Some s; connectedTabId := tabId; connectionStatus := false;
        settings_port := settings_port st; settings_token := settings_token st;
        reconnectAttempts := reconnectAttempts st;
        readyState := <[s := CONNECTING]> (readyState st);
        next_socket := S s |},
     [NewWebSocket s ("ws://localhost:" ++ to_string (settings_port st));
      SetTimeout 10000 (ConnectTimeout s)]).

Definition auth_frame (token : value) : value :=
  VObj [("type", VStr "auth"); ("token", token)].

Definition capabilities_frame : value :=
  VObj [("type", VStr "capabilities");
        ("data", VObj [("name", VStr "Browser MCP Extension");
                       ("version", VStr "1.0.0");
                       ("features", VArr [VStr "dom-interaction"; VStr "navigation";
                                          VStr "screenshots"])])].

(** The [onopen] handler of the socket [s]; the socket is open when it
    runs.  A [send] that throws ends the handler there. *)
Definition onopen (s : Socket) (st : state) : state * list effect :=
  let st1 := with_attempts 0 (with_status true (with_readyState s OPEN st)) in
  let pre := [ClearTimeout (ConnectTimeout s)] in
  match (if to_boolean (settings_token st1)
         then ws_send (auth_frame (settings_token st1)) st1 else Some []) with
  | None => (st1, pre)
  | Some sent_auth =>
      match ws_send capabilities_frame st1 with
      | None => (st1, (pre ++ sent_auth)%list)
      | Some sent_cap =>
          (st1, (pre ++ sent_auth ++ sent_cap ++
                 [broadcastStatusChange st1;
                  Resolve s (VObj [("success", VBool true)])])%list)
      end
  end.

(** The [onerror] handler of the socket [s]. *)
Definition onerror (s : Socket) (st : state) : state * list effect :=
  (st, [ClearTimeout (ConnectTimeout s);
        Resolve s (failure "Failed to connect to MCP server")]).

(** The callback of the 10 s timer of the [connect] call of [s]. *)
Definition connect_timeout (s : Socket) (st : state) : state * list effect :=
  (st, [Resolve s (failure "Connection timeout")]).

(** [handleDisconnection]. *)
Definition handleDisconnection (st : state) : state * list effect :=
  let st1 := with_status false st in
  (st1,
   broadcastStatusChange st1 ::
   (if to_boolean (connectedTabId st1)
       && (reconnectAttempts st1 <? maxReconnectAttempts)%Z
    then [SetTimeout (reconnectDelay * reconnectAttempts st1) Reconnect]
    else [])).

(** The [onclose] handler of the socket [s]. *)
Definition onclose (s : Socket) (st : state) : state * list effect :=
  handleDisconnection (with_readyState s CLOSED st).

(** The callback of the reconnect timer. *)
Definition reconnect (st : state) : state * list effect :=
  let st1 := with_attempts (reconnectAttempts st + 1) st in
  let '(_, st2, out) := connect (connectedTabId st1) st1 in
  (st2, out).

(** [disconnect()]; it returns [{ success: true }]. *)
Definition disconnect (st : state) : state * list effect :=
  let closing :=
    match ws st with
    | Some s =>
        match readyState st !! s with
        | Some CONNECTING | Some OPEN => <[s := CLOSING]> (readyState st)
        | _ => readyState st
        end
    | None => readyState st
    end in
  let st1 :=
    {| ws := None; connectedTabId := VNull; connectionStatus := false;
       settings_port := settings_port st; settings_token := settings_token st;
       reconnectAttempts := 0; readyState := closing;
       next_socket := next_socket st |} in
  (st1,
   (match ws st with Some s => [WsClose s] | None => [] end
    ++ [broadcastStatusChange st1])%list).

(** [executeAction] up to its [await]: [None] when it returns at once for
    want of a connected tab, otherwise the message sent to the tab. *)
Definition executeAction_start (action params : value) (st : state) : option effect :=
  if negb (to_boolean (connectedTabId st)) then None
  else Some (TabSend (connectedTabId st)
               (VObj [("type", VStr "EXECUTE_ACTION"); ("action", action);
                      ("params", params)])).

(** [handleServerMessage(data)] up to the [await] of the execute case. *)
Definition handleServerMessage (data : parse_result) (st : state) : state * list effect :=
  match JSON_parse data with
  | Throw _ => (st, [])
  | Normal message =>
      match get message "type", get message "action", get message "params" with
      | Normal t, Normal action, Normal params =>
          if strict_eq t (VStr "execute") then
            (st, match executeAction_start action params st with
                 | Some e => [e]
                 | None => []
                 end)
          else if strict_eq t (VStr "ping") then
            (st, match ws_send (VObj [("type", VStr "pong")]) st with
                 | Some out => out
                 | None => []
                 end)
          else (st, [])
      | _, _, _ => (st, [])
      end
  end.

(** The frames among the effects, in the order written. *)
Definition written (out : list effect) : list value :=
  flat_map (fun e => match e with WsSend _ m => [m] | _ => [] end) out.

(** One unexpected close of the current socket [s] followed by the
    reconnect timer it started, if it started one: the failed attempt of a
    server that stays down.  Returns the delay of the timer. *)
Definition close_and_retry (s : Socket) (st : state) : state * option Z :=
  let '(st1, out) := onclose s st in
  match out with
  | [_; SetTimeout delay Reconnect] => (fst (reconnect st1), Some delay)
  | _ => (st1, None)
  end.

(** [n] such failures in a row, each on the socket that the previous retry
    created; the delays of the reconnect timers, in order. *)
Fixpoint retries (n : nat) (st : state) : state * list Z :=
  match n with
  | O => (st, [])
  | S n' =>
      match ws st with
      | None => (st, [])
      | Some s =>
          match close_and_retry s st with
          | (st1, Some delay) =>
              let '(st2, delays) := retries n' st1 in (st2, delay :: delays)
          | (st1, None) => (st1, [])
          end
      end
  end.

End Background.

(** * Properties *)

Import Server.

(** ** Basic facts about the state and the monad *)

Section StateFacts.

Variables (s : state) (ws : WebSocket).

Lemma type_of_set_eq t : type_of (set_connectionType ws t s) ws = t.
Proof. unfold type_of, set_connectionType; simpl. by rewrite lookup_insert_eq. Qed.

Lemma type_of_set_ne t ws' : ws <> ws' -> type_of (set_connectionType ws t s) ws' = type_of s ws'.
Proof. intros Hne. unfold type_of, set_connectionType; simpl. by rewrite lookup_insert_ne. Qed.

Lemma type_of_add_extension ws' : type_of (add_extension ws s) ws' = type_of s ws'.
Proof. reflexivity. Qed.

Lemma type_of_add_mcp ws' : type_of (add_mcp ws s) ws' = type_of s ws'.
Proof. reflexivity. Qed.

Lemma type_of_set_context w ws' : type_of (set_context_ws w s) ws' = type_of s ws'.
Proof. reflexivity. Qed.

Lemma not_elem_of_remove (X : gset WebSocket) : ws ∉ X ∖ {[ws]}.
Proof.
  intros [_ Hn]%elem_of_difference. apply Hn. by apply elem_of_singleton.
Qed.

End StateFacts.

Lemma run_cons ev rest s :
  run (ev :: rest) s =
  (fst (run rest (fst (exec (step ev) s))),
   (snd (exec (step ev) s) ++ snd (run rest (fst (exec (step ev) s))))%list).
Proof.
  simpl. destruct (exec (step ev) s) as [s1 out1]. simpl.
  destruct (run rest s1) as [s2 out2]. reflexivity.
Qed.

Lemma strict_eq_str k v : strict_eq (VStr k) v = true -> v = VStr k.
Proof.
  destruct v; simpl; try discriminate.
  intros H. apply String.eqb_eq in H. by subst.
Qed.

Lemma includes_str ks v : includes ks v = true -> exists k, v = VStr k /\ In k ks.
Proof.
  unfold includes. intros H. apply existsb_exists in H as (k & Hin & Heq).
  exists k. split; [by apply strict_eq_str | done].
Qed.

(** ** The two predicates of the classifier *)

Lemma isExtensionMessage_true v :
  isExtensionMessage v = Normal true ->
  exists props k, v = VObj props /\ assoc "type" props = VStr k /\ In k executor_keywords.
Proof.
  unfold isExtensionMessage. destruct v; cbn [get]; try discriminate.
  intros H.
  assert (H' : to_boolean (assoc "type" props) && typeof_string (assoc "type" props)
               && includes executor_keywords (assoc "type" props) = true) by congruence.
  clear H. apply andb_prop in H' as [_ H].
  apply includes_str in H as (k & Hk & Hin). eauto.
Qed.

Lemma isExtensionMessage_object props :
  isExtensionMessage (VObj props) = Normal (includes executor_keywords (assoc "type" props)).
Proof.
  unfold isExtensionMessage. cbn [get]. f_equal.
  destruct (includes executor_keywords (assoc "type" props)) eqn:H.
  - apply includes_str in H as (k & -> & Hin).
    simpl in Hin. destruct Hin as [<-|[<-|[<-|[]]]]; reflexivity.
  - by rewrite andb_false_r.
Qed.

Lemma isMCPMessage_object props :
  isMCPMessage (VObj props) =
  Normal (strict_eq (assoc "jsonrpc" props) (VStr "2.0") &&
          (to_boolean (assoc "method" props)
           || negb (strict_eq (assoc "result" props) VUndefined)
           || negb (strict_eq (assoc "error" props) VUndefined))).
Proof. reflexivity. Qed.

Lemma isMCPMessage_true v :
  isMCPMessage v = Normal true -> exists props, v = VObj props.
Proof. destruct v; simpl; try discriminate; eauto. Qed.

(** ** What each handler does to the state *)

Lemma handleExtensionMessage_keyword now ws props k s :
  assoc "type" props = VStr k -> In k executor_keywords ->
  exists reply,
    handleExtensionMessage now ws (VObj props) s = (Normal tt, s, [Send ws reply])
    /\ get reply "type" =
       Normal (VStr (if String.eqb k "auth" then "auth_success"
                     else if String.eqb k "capabilities" then "capabilities_received"
                     else "pong")).
Proof.
  intros Ht Hin. unfold handleExtensionMessage, bind, lift. simpl. rewrite Ht.
  simpl in Hin. destruct Hin as [<-|[<-|[<-|[]]]]; simpl; eexists; split; reflexivity.
Qed.

Lemma handleExtensionMessage_state now ws v s :
  exists r out, handleExtensionMessage now ws v s = (r, s, out).
Proof.
  unfold handleExtensionMessage, bind, lift.
  destruct (get v "type") as [t|e]; simpl; [|eauto].
  repeat (match goal with |- context [if ?b then _ else _] => destruct b end);
    simpl; eauto.
Qed.

Lemma handleMCPMessage_object ws props s :
  exists out, handleMCPMessage ws (VObj props) s = (Normal tt, s, out).
Proof.
  unfold handleMCPMessage, bind, lift, try_catch. simpl.
  set (m := assoc "method" props).
  destruct (strict_eq m (VStr "tools/list")).
  { unfold handleToolsList, bind, gets, lift, sendMCPResponse, ws_send, emit. simpl. eauto. }
  destruct (strict_eq m (VStr "tools/call")).
  { unfold handleToolCall, bind, gets, lift, sendMCPResponse, sendMCPError, ws_send, emit. simpl.
    destruct (get (assoc "params" props) "name") as [n|e] eqn:Hn; simpl; [|eauto].
    destruct (get (assoc "params" props) "arguments") as [a|e] eqn:Ha; simpl; [|eauto].
    destruct (find_tool (tools s) n) as [t|]; simpl;
      [|destruct (template n); simpl; eauto].
    destruct (handle t (context s) a); simpl; eauto. }
  destruct (strict_eq m (VStr "resources/list")).
  { unfold handleResourcesList, bind, gets, lift, sendMCPResponse, ws_send, emit. simpl. eauto. }
  destruct (strict_eq m (VStr "resources/read")).
  { unfold handleResourceRead, bind, gets, lift, sendMCPResponse, sendMCPError, ws_send, emit. simpl.
    destruct (get (assoc "params" props) "uri") as [n|e] eqn:Hn; simpl; [|eauto].
    destruct (find_resource (resources s) n) as [t|]; simpl;
      [|destruct (template n); simpl; eauto].
    destruct (read t (context s) n); simpl; eauto. }
  unfold sendMCPError, ws_send, emit. simpl. destruct (template m); simpl; eauto.
Qed.

Lemma handleMCPMessage_state ws v s :
  exists r out, handleMCPMessage ws v s = (r, s, out).
Proof.
  destruct v; try (destruct (handleMCPMessage_object ws props s) as [out H]; eauto);
    try (eexists _, _; reflexivity).
Qed.

(** ** The message listener, case by case *)

Lemma on_message_mcp now ws v s :
  type_of s ws = mcp ->
  on_message now ws (Parsed v) s =
  try_catch (handleMCPMessage ws v) (fun _ => ws_send ws parse_error) s.
Proof.
  intros H. unfold on_message, try_catch, bind, lift, gets, ret, JSON_parse.
  rewrite H. simpl. rewrite H.
  destruct (handleMCPMessage ws v s) as [[[[]|e] s1] out1]; reflexivity.
Qed.

Lemma on_message_extension now ws v s :
  type_of s ws = extension ->
  on_message now ws (Parsed v) s =
  try_catch (handleExtensionMessage now ws v) (fun _ => ws_send ws parse_error) s.
Proof.
  intros H. unfold on_message, try_catch, bind, lift, gets, ret, JSON_parse.
  rewrite H. simpl. rewrite H.
  destruct (handleExtensionMessage now ws v s) as [[[[]|e] s1] out1]; reflexivity.
Qed.

Lemma classify_extension ws v s :
  isExtensionMessage v = Normal true ->
  classify ws v s =
  (Normal tt,
   set_context_ws (Some ws) (add_extension ws (set_connectionType ws extension s)),
   match _ws (context s) with Some old => [Close old] | None => [] end).
Proof.
  intros H. unfold classify, bind, lift, modify, gets, ws_close, emit, ret.
  rewrite H. simpl. unfold hasWs. destruct (_ws (context s)); reflexivity.
Qed.

Lemma classify_mcp ws v s :
  isExtensionMessage v = Normal false -> isMCPMessage v = Normal true ->
  classify ws v s = (Normal tt, add_mcp ws (set_connectionType ws mcp s), []).
Proof.
  intros H1 H2. unfold classify, bind, lift, modify, gets, ret.
  rewrite H1. simpl. rewrite H2. reflexivity.
Qed.

Lemma classify_neither ws v s :
  isExtensionMessage v = Normal false -> isMCPMessage v = Normal false ->
  classify ws v s = (Normal tt, s, []).
Proof.
  intros H1 H2. unfold classify, bind, lift, modify, gets, ret.
  rewrite H1. simpl. rewrite H2. reflexivity.
Qed.

Lemma on_message_unknown now ws v s :
  type_of s ws = unknown ->
  on_message now ws (Parsed v) s =
  try_catch
    (bind (classify ws v) (fun _ =>
     bind (gets (fun s' => type_of s' ws)) (fun t' =>
       match t' with
       | extension => handleExtensionMessage now ws v
       | mcp => handleMCPMessage ws v
       | unknown => ret tt
       end)))
    (fun _ => ws_send ws parse_error) s.
Proof.
  intros H. unfold on_message, try_catch, bind at 1 2, lift, gets at 1, JSON_parse.
  rewrite H. simpl.
  match goal with |- context [match ?b s with _ => _ end] => destruct (b s) as [[[[]|e] s1] out1] end;
    reflexivity.
Qed.

Lemma on_message_total now ws data s :
  exists s' out, on_message now ws data s = (Normal tt, s', out).
Proof.
  unfold on_message, try_catch.
  match goal with |- context [match ?b s with _ => _ end] => destruct (b s) as [[[[]|e] s1] out1] end;
    simpl; eauto.
Qed.

Lemma on_message_first_mcp now ws v s :
  type_of s ws = unknown ->
  isExtensionMessage v = Normal false ->
  isMCPMessage v = Normal true ->
  on_message now ws (Parsed v) s =
  handleMCPMessage ws v (add_mcp ws (set_connectionType ws mcp s)).
Proof.
  intros Hu He Hm. rewrite on_message_unknown by done.
  unfold try_catch, bind at 1. rewrite (classify_mcp _ _ _ He Hm).
  unfold bind, gets. rewrite type_of_add_mcp, type_of_set_eq.
  destruct (isMCPMessage_true _ Hm) as [props ->].
  destruct (handleMCPMessage_object ws props (add_mcp ws (set_connectionType ws mcp s)))
    as [out ->].
  reflexivity.
Qed.

Lemma on_message_first_extension now ws v s :
  type_of s ws = unknown ->
  isExtensionMessage v = Normal true ->
  exists reply,
    on_message now ws (Parsed v) s =
    (Normal tt,
     set_context_ws (Some ws) (add_extension ws (set_connectionType ws extension s)),
     (match _ws (context s) with Some old => [Close old] | None => [] end ++ [Send ws reply])%list).
Proof.
  intros Hu He. rewrite on_message_unknown by done.
  unfold try_catch, bind at 1. rewrite (classify_extension _ _ _ He).
  unfold bind, gets. rewrite type_of_set_context, type_of_add_extension, type_of_set_eq.
  destruct (isExtensionMessage_true _ He) as (props & k & -> & Ht & Hin).
  destruct (handleExtensionMessage_keyword now ws props k
              (set_context_ws (Some ws) (add_extension ws (set_connectionType ws extension s)))
              Ht Hin) as (reply & -> & _).
  exists reply. reflexivity.
Qed.

Lemma on_message_first_neither now ws v s :
  type_of s ws = unknown ->
  isExtensionMessage v = Normal false ->
  isMCPMessage v = Normal false ->
  on_message now ws (Parsed v) s = (Normal tt, s, []).
Proof.
  intros Hu He Hm. rewrite on_message_unknown by done.
  unfold try_catch, bind at 1. rewrite (classify_neither _ _ _ He Hm).
  unfold bind, gets. rewrite Hu. reflexivity.
Qed.

(** * The claims *)

(** C1 (as stated, refuted): the request of the external interface,
    [{"protocolVersion":"2.0","id":1,"method":"tools/list","params":{}}], is
    request-shaped in the specification's sense, yet as the first frame of a
    connection it leaves the connection unclassified, outside the controller
    set, and nothing is dispatched or answered. *)
Lemma protocolVersion_request_not_classified :
  Spec.request_or_response_shaped Examples.protocolVersion_request = true
  /\ type_of Examples.server0 Examples.ws1 = unknown
  /\ (let '(s', out) :=
        exec (on_message 0 Examples.ws1 (Parsed Examples.protocolVersion_request))
             Examples.server0 in
      type_of s' Examples.ws1 = unknown
      /\ (Examples.ws1 ∉ mcpConnections s')
      /\ out = []).
Proof.
  split; [reflexivity|]. split; [reflexivity|].
  assert (H : exec (on_message 0 Examples.ws1 (Parsed Examples.protocolVersion_request))
                   Examples.server0 = (Examples.server0, [])) by reflexivity.
  rewrite H. split; [reflexivity|]. split; [|reflexivity].
  apply not_elem_of_empty.
Qed.

(** A request whose [method] is the empty string is not classified either:
    the classifier tests the truth value of [message.method]. *)
Lemma empty_method_not_classified :
  exec (on_message 0 Examples.ws1 (Parsed Examples.empty_method_request)) Examples.server0
  = (Examples.server0, []).
Proof. reflexivity. Qed.

(** An executor keyword in [type] wins over a controller envelope: the
    executor test runs first. *)
Lemma executor_keyword_wins :
  type_of
    (fst (exec (on_message 0 Examples.ws1
                  (Parsed (VObj [("jsonrpc", VStr "2.0"); ("id", VNum 1);
                                 ("method", VStr "tools/list"); ("type", VStr "ping")])))
               Examples.server0))
    Examples.ws1 = extension.
Proof. reflexivity. Qed.

(** C1 (amended): when the first frame of a connection parses to a message
    that is not an executor message ([isExtensionMessage] is false) and whose
    [jsonrpc] field is the string "2.0" with a truthy [method], or a [result]
    or [error] that is not undefined ([isMCPMessage] is true), the
    connection becomes [mcp] on that frame, joins [mcpConnections], and the
    frame is handled by [handleMCPMessage] in the state so updated. *)
Theorem controller_classified_on_first_message now ws v s :
  type_of s ws = unknown ->
  isExtensionMessage v = Normal false ->
  isMCPMessage v = Normal true ->
  on_message now ws (Parsed v) s =
    handleMCPMessage ws v (add_mcp ws (set_connectionType ws mcp s))
  /\ (let '(s', _) := exec (on_message now ws (Parsed v)) s in
      type_of s' ws = mcp
      /\ ws ∈ mcpConnections s'
      /\ mcpConnections s' = {[ws]} ∪ mcpConnections s
      /\ extensionConnections s' = extensionConnections s
      /\ context s' = context s).
Proof.
  intros Hu He Hm.
  pose proof (on_message_first_mcp now ws v s Hu He Hm) as Heq.
  split; [exact Heq|].
  unfold exec. rewrite Heq.
  destruct (isMCPMessage_true _ Hm) as [props ->].
  destruct (handleMCPMessage_object ws props (add_mcp ws (set_connectionType ws mcp s)))
    as [out ->].
  split; [by rewrite type_of_add_mcp, type_of_set_eq|].
  split; [simpl; apply elem_of_union_l; by apply elem_of_singleton|].
  repeat split.
Qed.

Lemma controller_classified_on_first_message_witness :
  on_message 0 Examples.ws1 (Parsed Examples.tools_list_request) Examples.server0 =
    handleMCPMessage Examples.ws1 Examples.tools_list_request
      (add_mcp Examples.ws1 (set_connectionType Examples.ws1 mcp Examples.server0)).
Proof.
  apply (controller_classified_on_first_message 0 Examples.ws1
           Examples.tools_list_request Examples.server0);
    reflexivity.
Defined.

(** In field terms: an object is a controller message exactly when its
    [jsonrpc] is "2.0" and [method] is truthy or [result] or [error] is set. *)
Lemma isMCPMessage_fields props :
  isMCPMessage (VObj props) = Normal true <->
  assoc "jsonrpc" props = VStr "2.0"
  /\ (to_boolean (assoc "method" props) = true
      \/ assoc "result" props <> VUndefined
      \/ assoc "error" props <> VUndefined).
Proof.
  rewrite isMCPMessage_object.
  assert (Hu : forall x, negb (strict_eq x VUndefined) = true <-> x <> VUndefined).
  { intros x; destruct x; simpl; split; try congruence; try discriminate; auto. }
  split.
  - intros H.
    assert (H' : strict_eq (assoc "jsonrpc" props) (VStr "2.0")
                 && (to_boolean (assoc "method" props)
                     || negb (strict_eq (assoc "result" props) VUndefined)
                     || negb (strict_eq (assoc "error" props) VUndefined)) = true) by congruence.
    clear H. apply andb_prop in H' as [Hj Hr]. split.
    + destruct (assoc "jsonrpc" props); try discriminate.
      apply String.eqb_eq in Hj. by subst.
    + apply orb_prop in Hr as [Hr|Hr]; [apply orb_prop in Hr as [Hr|Hr]|].
      * by left.
      * right; left. by apply Hu.
      * right; right. by apply Hu.
  - intros [Hj Hr]. rewrite Hj. f_equal.
    change (strict_eq (VStr "2.0") (VStr "2.0")) with true. rewrite andb_true_l.
    destruct Hr as [Hr|[Hr|Hr]].
    + by rewrite Hr.
    + apply Hu in Hr. rewrite Hr. by rewrite orb_true_r.
    + apply Hu in Hr. rewrite Hr. by rewrite orb_true_r.
Qed.

(** C10 (as stated, refuted): the frame [null] parses as JSON and matches
    neither the executor keyword set nor the controller envelope predicate,
    yet the server answers it with the parse-error envelope. *)
Lemma null_frame_answered :
  Spec.executor_keyword VNull = false
  /\ Spec.controller_envelope VNull = false
  /\ type_of Examples.server0 Examples.ws1 = unknown
  /\ exec (on_message 0 Examples.ws1 (Parsed VNull)) Examples.server0
     = (Examples.server0, [Send Examples.ws1 parse_error]).
Proof. repeat split. Qed.

Lemma spec_neither_code_neither v :
  v <> VNull -> v <> VUndefined ->
  Spec.executor_keyword v = false ->
  Spec.controller_envelope v = false ->
  isExtensionMessage v = Normal false /\ isMCPMessage v = Normal false.
Proof.
  intros Hn Hu He Hc. destruct v; try congruence; try (split; reflexivity).
  split.
  - rewrite isExtensionMessage_object. unfold Spec.executor_keyword in He. by rewrite He.
  - rewrite isMCPMessage_object. f_equal.
    unfold Spec.controller_envelope, Spec.present in Hc.
    destruct (strict_eq (assoc "jsonrpc" props) (VStr "2.0")); [|reflexivity].
    rewrite andb_true_l in Hc |- *.
    apply orb_false_elim in Hc as [Hc ->]. apply orb_false_elim in Hc as [Hc ->].
    rewrite !orb_false_r.
    destruct (assoc "method" props); try discriminate; reflexivity.
Qed.

(** C10 (amended): on a connection that is still unclassified, a frame that
    parses to a JSON value other than [null] and matches neither the
    executor keyword set nor the controller envelope predicate produces no
    response at all and leaves the whole server state as it was, so the
    connection stays unclassified and the next frame is classified as if
    this one had never arrived. *)
Theorem unmatched_first_message_is_silent now ws v s :
  type_of s ws = unknown ->
  v <> VNull -> v <> VUndefined ->
  Spec.executor_keyword v = false ->
  Spec.controller_envelope v = false ->
  on_message now ws (Parsed v) s = (Normal tt, s, [])
  /\ forall rest, run (Message now ws (Parsed v) :: rest) s = run rest s.
Proof.
  intros Hu Hn Hd He Hc.
  destruct (spec_neither_code_neither v Hn Hd He Hc) as [H1 H2].
  pose proof (on_message_first_neither now ws v s Hu H1 H2) as Heq.
  split; [exact Heq|].
  intros rest. rewrite run_cons. unfold exec, step. rewrite Heq. simpl.
  by destruct (run rest s).
Qed.

Lemma unmatched_first_message_is_silent_witness :
  on_message 0 Examples.ws1 (Parsed Examples.stray) Examples.server0
  = (Normal tt, Examples.server0, []).
Proof.
  apply (unmatched_first_message_is_silent 0 Examples.ws1 Examples.stray Examples.server0);
    [reflexivity | discriminate | discriminate | reflexivity | reflexivity].
Defined.

(** C7: a frame that is not parseable JSON is answered, on whatever
    connection and in whatever state, with the envelope whose [error.code] is
    -32700; the listener returns normally and the server state is untouched,
    so every later frame is processed exactly as if the malformed one had
    not been sent.  The listener never lets an exception escape on any
    frame. *)
Theorem malformed_frame_parse_error now ws s :
  on_message now ws Malformed s = (Normal tt, s, [Send ws parse_error])
  /\ match get parse_error "error" with
     | Normal e => get e "code"
     | Throw x => Throw x
     end = Normal (VNum (-32700))
  /\ (forall rest, run (Message now ws Malformed :: rest) s
        = (fst (run rest s), Send ws parse_error :: snd (run rest s)))
  /\ (forall now' data s0, exists s' out,
        on_message now' ws data s0 = (Normal tt, s', out)).
Proof.
  assert (H : on_message now ws Malformed s = (Normal tt, s, [Send ws parse_error]))
    by reflexivity.
  split; [exact H|]. split; [reflexivity|]. split.
  - intros rest. rewrite run_cons. unfold exec, step. rewrite H. reflexivity.
  - intros now' data s0. apply on_message_total.
Qed.

(** C8: closing a connection removes it from both role sets; the current
    executor channel is cleared exactly when the closing connection is the
    current one, and is otherwise left as it was; nothing else of the server
    changes, nothing is sent and no channel is installed. *)
Theorem close_detaches_only_current ws s :
  let '(s', out) := exec (on_close ws) s in
  extensionConnections s' = extensionConnections s ∖ {[ws]}
  /\ mcpConnections s' = mcpConnections s ∖ {[ws]}
  /\ (ws ∉ extensionConnections s') /\ (ws ∉ mcpConnections s')
  /\ context s' = (if bool_decide (_ws (context s) = Some ws)
                   then {| _ws := None |} else context s)
  /\ tools s' = tools s /\ resources s' = resources s
  /\ connectionType s' = connectionType s
  /\ out = [].
Proof.
  unfold exec, on_close, bind, modify, gets, ret, hasWs.
  cbn [context delete_connection].
  destruct (_ws (context s)) as [cur|] eqn:Hcur; cbn [andb].
  - case_bool_decide;
      (split; [done|]); (split; [done|]);
      (split; [apply not_elem_of_remove|]); (split; [apply not_elem_of_remove|]);
      done.
  - (split; [done|]); (split; [done|]);
      (split; [apply not_elem_of_remove|]); (split; [apply not_elem_of_remove|]).
    split; [|done]. by rewrite bool_decide_eq_false_2.
Qed.

(** ** Controller requests *)

Lemma get_string_object v k x : get v k = Normal (VStr x) -> exists props, v = VObj props.
Proof. destruct v; simpl; try discriminate; eauto. Qed.

Lemma on_message_controller now ws props s :
  controller_frame s ws (VObj props) ->
  exists s1,
    on_message now ws (Parsed (VObj props)) s = handleMCPMessage ws (VObj props) s1
    /\ tools s1 = tools s /\ resources s1 = resources s /\ context s1 = context s.
Proof.
  intros [Hm|(Hu & He & Hm)].
  - exists s. rewrite on_message_mcp by done. unfold try_catch.
    destruct (handleMCPMessage_object ws props s) as [out ->]. done.
  - eexists. rewrite (on_message_first_mcp now ws _ s Hu He Hm). done.
Qed.


Lemma find_tool_some ts n tool :
  find_tool ts n = Some tool -> In tool ts /\ n = VStr (name (schema tool)).
Proof.
  unfold find_tool. intros H. apply find_some in H as [Hin E].
  split; [done | by apply strict_eq_str].
Qed.

Lemma handleMCPMessage_tools_call ws props params n args s :
  assoc "method" props = VStr "tools/call" ->
  assoc "params" props = params ->
  get params "name" = Normal n ->
  get params "arguments" = Normal args ->
  handleMCPMessage ws (VObj props) s =
  (Normal tt, s,
   match find_tool (tools s) n with
   | None =>
       [Send ws
          (if raises n
           then VObj [("jsonrpc", VStr "2.0"); ("id", assoc "id" props);
                      ("error", VObj [("code", VNum (-32603));
                                      ("message", VStr "Internal error")])]
           else VObj [("jsonrpc", VStr "2.0"); ("id", assoc "id" props);
                      ("error", VObj [("code", VNum (-32602));
                                      ("message", VStr ("Tool not found: " ++ to_string n))])])]
   | Some tool =>
       [Invoke (name (schema tool)) args;
        Send ws
          match handle tool (context s) args with
          | Fulfilled result =>
              VObj [("jsonrpc", VStr "2.0"); ("id", assoc "id" props); ("result", result)]
          | Rejected msg =>
              VObj [("jsonrpc", VStr "2.0"); ("id", assoc "id" props);
                    ("error", VObj [("code", VNum (-32603));
                                    ("message", VStr ("Tool execution failed: " ++ msg))])]
          end]
   end).
Proof.
  intros Hm Hp Hn Ha.
  unfold handleMCPMessage, bind at 1, lift at 1, try_catch. cbn [get]. rewrite Hm.
  change (strict_eq (VStr "tools/call") (VStr "tools/list")) with false.
  change (strict_eq (VStr "tools/call") (VStr "tools/call")) with true. cbv iota.
  unfold handleToolCall, bind, lift, gets, emit, sendMCPError, sendMCPResponse, ws_send, emit.
  cbn [get]. rewrite Hp, Hn, Ha.
  destruct (find_tool (tools s) n) as [tool|];
    [|unfold template; destruct (raises n); reflexivity].
  destruct (handle tool (context s) args); reflexivity.
Qed.




(** C4 (as stated, refuted): [tools/call] of [click] with the arguments [{}]
    does not satisfy the declared schema of [click] (the required [element]
    is missing), yet the handler of [click] is invoked with those arguments
    and the reply is its result, not an "invalid params" error. *)
Lemma click_without_element_reaches_handler :
  Zod.accepts (Zod.arguments Zod.ClickTool) (VObj []) = false
  /\ exec (on_message 0 Examples.ws1 (Parsed Examples.click_without_element))
          Examples.server_with_controller
     = (Examples.server_with_controller,
        [Invoke "click" (VObj []);
         Send Examples.ws1
           (VObj [("jsonrpc", VStr "2.0"); ("id", VNum 7); ("result", VObj [])])]).
Proof. split; reflexivity. Qed.

(** C4 (amended): a [tools/call] request that names a registered tool is
    passed to that tool's [handle] with the supplied arguments whatever they
    are; the server itself validates nothing.  The reply is the handler's
    result, or, when the handler fails, the error envelope with code -32603
    carrying the failure's message; code -32602 is never sent for a
    registered tool. *)
Theorem tool_handler_runs_unvalidated now ws props n args tool s :
  controller_frame s ws (VObj props) ->
  assoc "method" props = VStr "tools/call" ->
  get (assoc "params" props) "name" = Normal n ->
  get (assoc "params" props) "arguments" = Normal args ->
  find_tool (tools s) n = Some tool ->
  snd (exec (on_message now ws (Parsed (VObj props))) s) =
  [Invoke (name (schema tool)) args;
   Send ws
     match handle tool (context s) args with
     | Fulfilled result =>
         VObj [("jsonrpc", VStr "2.0"); ("id", assoc "id" props); ("result", result)]
     | Rejected msg =>
         VObj [("jsonrpc", VStr "2.0"); ("id", assoc "id" props);
               ("error", VObj [("code", VNum (-32603));
                               ("message", VStr ("Tool execution failed: " ++ msg))])]
     end].
Proof.
  intros Hc Hm Hn Ha Hf.
  destruct (on_message_controller now ws props s Hc) as (s1 & Heq & Ht & _ & Hctx).
  unfold exec. rewrite Heq.
  rewrite (handleMCPMessage_tools_call ws props _ n args s1 Hm eq_refl Hn Ha).
  rewrite Ht, Hf, Hctx. reflexivity.
Qed.

Lemma tool_handler_runs_unvalidated_witness :
  snd (exec (on_message 0 Examples.ws1 (Parsed Examples.click_without_element))
            Examples.server_with_controller) =
  [Invoke "click" (VObj []);
   Send Examples.ws1 (VObj [("jsonrpc", VStr "2.0"); ("id", VNum 7); ("result", VObj [])])].
Proof.
  apply (tool_handler_runs_unvalidated 0 Examples.ws1
           [("jsonrpc", VStr "2.0"); ("id", VNum 7); ("method", VStr "tools/call");
            ("params", VObj [("name", VStr "click"); ("arguments", VObj [])])]
           (VStr "click") (VObj [])
           (Registry.tool_of Examples.echo_handler Examples.object_schema Zod.ClickTool)
           Examples.server_with_controller).
  - left. reflexivity.
  - reflexivity.
  - reflexivity.
  - reflexivity.
  - reflexivity.
Defined.

(** ** Tool discovery *)

Lemma handleMCPMessage_tools_list ws props s :
  assoc "method" props = VStr "tools/list" ->
  handleMCPMessage ws (VObj props) s =
  (Normal tt, s,
   [Send ws (VObj [("jsonrpc", VStr "2.0"); ("id", assoc "id" props);
                   ("result",
                    VObj [("tools", VArr (map (fun t => schema_value (schema t)) (tools s)))])])]).
Proof.
  intros Hm.
  unfold handleMCPMessage, bind at 1, lift at 1, try_catch. cbn [get]. rewrite Hm.
  reflexivity.
Qed.

(** The names in the order of the static list. *)
Lemma snapshotTools_names handler json :
  map (fun t => name (schema t)) (Registry.snapshotTools handler json) =
  ["navigate"; "go_back"; "go_forward"; "snapshot"; "click"; "hover"; "type";
   "select_option"; "press_key"; "wait"; "get_console_logs"; "screenshot"].
Proof. reflexivity. Qed.

(** C9: a [tools/list] request handled on a controller connection is
    answered with a success envelope whose [result.tools] has one entry per
    registered tool; with the static tool list these are 12 entries, one of
    them named "snapshot", and no two entries have the same name. *)
Theorem tools_list_static now ws props handler json s :
  controller_frame s ws (VObj props) ->
  assoc "method" props = VStr "tools/list" ->
  tools s = Registry.snapshotTools handler json ->
  exists entries,
    snd (exec (on_message now ws (Parsed (VObj props))) s) =
      [Send ws (VObj [("jsonrpc", VStr "2.0"); ("id", assoc "id" props);
                      ("result", VObj [("tools", VArr entries)])])]
    /\ length entries = length (tools s)
    /\ length entries = 12%nat
    /\ In (Normal (VStr "snapshot")) (map (fun e => get e "name") entries)
    /\ NoDup (map (fun e => get e "name") entries).
Proof.
  intros Hc Hm Hts.
  destruct (on_message_controller now ws props s Hc) as (s1 & Heq & Ht & _ & _).
  exists (map (fun t => schema_value (schema t)) (tools s)).
  split.
  { unfold exec. rewrite Heq, (handleMCPMessage_tools_list ws props s1 Hm), Ht. reflexivity. }
  split; [apply length_map|].
  rewrite Hts. split; [reflexivity|]. split.
  - cbv. tauto.
  - rewrite map_map.
    change (map (fun t => get (schema_value (schema t)) "name")
                (Registry.snapshotTools handler json))
      with (map (fun k => Normal (VStr k))
                ["navigate"; "go_back"; "go_forward"; "snapshot"; "click"; "hover"; "type";
                 "select_option"; "press_key"; "wait"; "get_console_logs"; "screenshot"]).
    apply NoDup_fmap_2; [intros a b [= ->]; reflexivity|].
    apply (bool_decide_unpack _). vm_compute. exact I.
Qed.

Lemma tools_list_static_witness :
  exists entries,
    snd (exec (on_message 0 Examples.ws1 (Parsed Examples.tools_list_request))
              Examples.server0) =
      [Send Examples.ws1 (VObj [("jsonrpc", VStr "2.0"); ("id", VNum 1);
                                ("result", VObj [("tools", VArr entries)])])]
    /\ length entries = 12%nat.
Proof.
  destruct (tools_list_static 0 Examples.ws1
              [("jsonrpc", VStr "2.0"); ("id", VNum 1);
               ("method", VStr "tools/list"); ("params", VObj [])]
              Examples.echo_handler Examples.object_schema Examples.server0)
    as (entries & Hout & _ & Hlen & _).
  - right. repeat split.
  - reflexivity.
  - reflexivity.
  - exists entries. split; [exact Hout | exact Hlen].
Defined.

(** For any registry the listing has one entry per tool, in order. *)
Lemma tools_list_length now ws props s :
  controller_frame s ws (VObj props) ->
  assoc "method" props = VStr "tools/list" ->
  snd (exec (on_message now ws (Parsed (VObj props))) s) =
  [Send ws (VObj [("jsonrpc", VStr "2.0"); ("id", assoc "id" props);
                  ("result",
                   VObj [("tools", VArr (map (fun t => schema_value (schema t)) (tools s)))])])].
Proof.
  intros Hc Hm.
  destruct (on_message_controller now ws props s Hc) as (s1 & Heq & Ht & _ & _).
  unfold exec. by rewrite Heq, (handleMCPMessage_tools_list ws props s1 Hm), Ht.
Qed.

(** ** The executor channel *)

Lemma forwarding_goes_to_current ws ty payload tmo mid st :
  Sender.sent (snd (Sender.sendToExecutor {| _ws := Some ws |} ty payload tmo mid st)) =
  match Sender.failing st !! ws with
  | None => (Sender.sent st ++
             [(ws, VObj [("id", VStr mid); ("type", VStr ty); ("payload", payload)])])%list
  | Some _ => Sender.sent st
  end.
Proof.
  unfold Sender.sendToExecutor, Sender.sendSocketMessage. cbn [_ws].
  destruct (Sender.failing st !! ws); reflexivity.
Qed.

(** C2: when an executor channel [old] is current and the first frame of a
    new connection [ws] carries a [type] among auth, capabilities and ping,
    the server closes [old], makes [ws] the one current channel, classifies
    [ws] as an executor and answers it; every frame forwarded afterwards is
    written to [ws] and to no other socket. *)
Theorem executor_replaced now ws old v s :
  type_of s ws = unknown ->
  _ws (context s) = Some old ->
  Spec.executor_keyword v = true ->
  exists reply,
    let '(s', out) := exec (on_message now ws (Parsed v)) s in
    out = [Close old; Send ws reply]
    /\ context s' = {| _ws := Some ws |}
    /\ type_of s' ws = extension
    /\ ws ∈ extensionConnections s'
    /\ forall ty payload tmo mid st w m,
         In (w, m) (Sender.sent (snd (Sender.sendToExecutor (context s') ty payload tmo mid st))) ->
         In (w, m) (Sender.sent st)
         \/ (w = ws /\ m = VObj [("id", VStr mid); ("type", VStr ty); ("payload", payload)]).
Proof.
  intros Hu Hold Hk.
  assert (He : isExtensionMessage v = Normal true).
  { destruct v; try discriminate. rewrite isExtensionMessage_object.
    unfold Spec.executor_keyword in Hk. by rewrite Hk. }
  destruct (on_message_first_extension now ws v s Hu He) as [reply Heq].
  exists reply. unfold exec. rewrite Heq, Hold.
  split; [reflexivity|]. split; [reflexivity|].
  split; [by rewrite type_of_set_context, type_of_add_extension, type_of_set_eq|].
  split; [simpl; apply elem_of_union_l; by apply elem_of_singleton|].
  intros ty payload tmo mid st w m. cbn [context set_context_ws].
  rewrite forwarding_goes_to_current.
  destruct (Sender.failing st !! ws); [by left|].
  intros [Hin|Hin]%in_app_or; [by left|].
  destruct Hin as [[= <- <-]|[]]. by right.
Qed.

Lemma executor_replaced_witness :
  exists reply,
    snd (exec (on_message 5 Examples.ws2 (Parsed Examples.auth)) Examples.server_with_executor)
    = [Close Examples.ws1; Send Examples.ws2 reply].
Proof.
  destruct (executor_replaced 5 Examples.ws2 Examples.ws1 Examples.auth
              Examples.server_with_executor) as [reply H].
  - reflexivity.
  - reflexivity.
  - reflexivity.
  - exists reply.
    destruct (exec (on_message 5 Examples.ws2 (Parsed Examples.auth))
                   Examples.server_with_executor) as [s' out].
    destruct H as (-> & _). reflexivity.
Defined.

(** The state after a frame: unchanged, or the connection has just been
    classified. *)
Lemma on_message_cases now ws data s :
  let '(s', out) := exec (on_message now ws data) s in
  s' = s
  \/ (type_of s ws = unknown /\ s' = add_mcp ws (set_connectionType ws mcp s))
  \/ (type_of s ws = unknown
      /\ s' = set_context_ws (Some ws) (add_extension ws (set_connectionType ws extension s))
      /\ forall old, _ws (context s) = Some old -> In (Close old) out).
Proof.
  destruct data as [|v]; [by left|].
  destruct (type_of s ws) eqn:Ht.
  - destruct (isExtensionMessage v) as [[|]|e] eqn:He.
    + destruct (on_message_first_extension now ws v s Ht He) as [reply Heq].
      unfold exec. rewrite Heq. right; right. split; [done|]. split; [done|].
      intros old ->. by left.
    + destruct (isMCPMessage v) as [[|]|e] eqn:Hm.
      * unfold exec. rewrite (on_message_first_mcp now ws v s Ht He Hm).
        destruct (handleMCPMessage_state ws v (add_mcp ws (set_connectionType ws mcp s)))
          as (r & out & ->).
        right; left. done.
      * unfold exec. rewrite (on_message_first_neither now ws v s Ht He Hm). by left.
      * destruct v; discriminate.
    + unfold exec. rewrite on_message_unknown by done.
      unfold try_catch, bind at 1, classify, bind at 1, lift. rewrite He. by left.
  - unfold exec. rewrite on_message_extension by done. unfold try_catch.
    destruct (handleExtensionMessage_state now ws v s) as (r & out & ->).
    destruct r; by left.
  - unfold exec. rewrite on_message_mcp by done. unfold try_catch.
    destruct (handleMCPMessage_state ws v s) as (r & out & ->).
    destruct r; by left.
Qed.

Lemma step_exclusive ev s out evs :
  exclusive s out evs ->
  exclusive (fst (exec (step ev) s)) (out ++ snd (exec (step ev) s))%list (evs ++ [ev])%list.
Proof.
  intros Hinv w Hw. destruct ev as [now ws data|ws]; cbn [step] in *.
  - pose proof (on_message_cases now ws data s) as Hc.
    destruct (exec (on_message now ws data) s) as [s' o]. cbn [fst snd] in *.
    destruct Hc as [->|[(Hu & ->)|(Hu & -> & Hclose)]].
    + destruct (Hinv w Hw) as [H|[H|H]]; [by left| |].
      * right; left. apply in_or_app. by left.
      * right; right. apply in_or_app. by left.
    + rewrite type_of_add_mcp in Hw. destruct (decide (ws = w)) as [->|Hne].
      * rewrite type_of_set_eq in Hw. discriminate.
      * rewrite type_of_set_ne in Hw by done.
        destruct (Hinv w Hw) as [H|[H|H]]; [by left| |].
        -- right; left. apply in_or_app. by left.
        -- right; right. apply in_or_app. by left.
    + rewrite type_of_set_context, type_of_add_extension in Hw.
      destruct (decide (ws = w)) as [->|Hne]; [by left|].
      rewrite type_of_set_ne in Hw by done.
      destruct (Hinv w Hw) as [H|[H|H]].
      * right; left. apply in_or_app. right. by apply Hclose.
      * right; left. apply in_or_app. by left.
      * right; right. apply in_or_app. by left.
  - assert (Hty : type_of (fst (exec (on_close ws) s)) w = type_of s w).
    { unfold exec, on_close, bind, modify, gets, ret.
      destruct (hasWs _ && bool_decide _); reflexivity. }
    rewrite Hty in Hw.
    assert (Hout : snd (exec (on_close ws) s) = []).
    { unfold exec, on_close, bind, modify, gets, ret.
      destruct (hasWs _ && bool_decide _); reflexivity. }
    rewrite Hout, app_nil_r.
    destruct (Hinv w Hw) as [H|[H|H]].
    + destruct (decide (w = ws)) as [->|Hne].
      * right; right. apply in_or_app. right. by left.
      * left. unfold exec, on_close, bind, modify, gets, ret.
        cbn [context delete_connection]. rewrite H.
        rewrite bool_decide_eq_false_2 by congruence.
        by rewrite andb_false_r.
    + right; left. done.
    + right; right. apply in_or_app. by left.
Qed.

Lemma run_exclusive evs s out0 evs0 :
  exclusive s out0 evs0 ->
  exclusive (fst (run evs s)) (out0 ++ snd (run evs s))%list (evs0 ++ evs)%list.
Proof.
  revert s out0 evs0. induction evs as [|ev evs IH]; intros s out0 evs0 Hinv.
  - simpl. by rewrite !app_nil_r.
  - rewrite run_cons. cbn [fst snd].
    rewrite app_assoc. change (ev :: evs) with ([ev] ++ evs)%list. rewrite app_assoc.
    apply IH. by apply step_exclusive.
Qed.

(** Along every run of a fresh server at most one executor connection is
    left open by the server: each executor connection other than the current
    channel has been closed by the server or has closed itself. *)
Lemma single_executor_invariant ts rs evs :
  exclusive (fst (run evs (new ts rs))) (snd (run evs (new ts rs))) evs.
Proof.
  apply (run_exclusive evs (new ts rs) [] []).
  intros ws Hw. discriminate.
Qed.

(** ** The sender: timeouts and pending entries *)

Import Sender.

Lemma settle_other p q r (ps : gmap nat promise) : p <> q -> settle p r ps !! q = ps !! q.
Proof.
  intros Hne. unfold settle. destruct (ps !! p) as [[]|]; try reflexivity.
  by rewrite lookup_insert_ne.
Qed.

Lemma settle_pending p r (ps : gmap nat promise) :
  ps !! p = Some Pending -> settle p r ps !! p = Some r.
Proof. intros H. unfold settle. rewrite H. by rewrite lookup_insert_eq. Qed.

Lemma settle_settled p r (ps : gmap nat promise) :
  ps !! p <> Some Pending -> settle p r ps = ps.
Proof.
  intros H. unfold settle. destruct (ps !! p) as [[]|]; try reflexivity. congruence.
Qed.

Lemma fire_all_other ts (ps : gmap nat promise) p :
  Forall (fun t => rejects t <> p) ts ->
  fold_left (fun ps t => fire t ps) ts ps !! p = ps !! p.
Proof.
  revert ps. induction ts as [|t ts IH]; intros ps Hall; [reflexivity|].
  apply Forall_cons in Hall as [Ht Hts]. cbn [fold_left].
  rewrite IH by done. unfold fire. by apply settle_other.
Qed.

(** Timers never touch the listeners: a timeout does not unregister the
    [handleMessage] closure of its request. *)
Lemma advance_listeners dt st : listeners (advance dt st) = listeners st.
Proof. reflexivity. Qed.



Lemma setTimeout_delay_small ms : ms <= TIMEOUT_MAX -> setTimeout_delay ms = ms.
Proof.
  unfold setTimeout_delay. intros H. destruct (Z.leb_spec ms TIMEOUT_MAX); [done | lia].
Qed.

(** The promise of a request stays pending until the delay of its timer has
    passed and is rejected with 'Message timeout' from then on. *)
Lemma timeout_rejects_at_deadline ws ty payload tmo mid dt st :
  failing st !! ws = None ->
  Forall (fun t => rejects t <> next st) (timers st) ->
  let '(p, st1) := sendSocketMessage ws ty payload tmo mid st in
  promises (advance dt st1) !! p =
  Some (if (setTimeout_delay (default 30000 tmo) <=? dt)%Z
        then Failed "Message timeout" else Pending).
Proof.
  intros Hf Hall. unfold sendSocketMessage. rewrite Hf.
  unfold advance. cbn [promises timers clock].
  rewrite List.filter_app, fold_left_app. cbn [List.filter due].
  set (delay := setTimeout_delay (default 30000 tmo)).
  replace (clock st + delay <=? clock st + dt)%Z
    with (delay <=? dt)%Z
    by (destruct (Z.leb_spec delay dt), (Z.leb_spec (clock st + delay) (clock st + dt)); lia).
  assert (Hp : fold_left (fun ps t => fire t ps)
                 (List.filter (fun t => (due t <=? clock st + dt)%Z) (timers st))
                 (<[next st := Pending]> (promises st)) !! next st = Some Pending).
  { rewrite fire_all_other; [by rewrite lookup_insert_eq|].
    apply List.Forall_forall. intros t [Hin _]%filter_In.
    rewrite List.Forall_forall in Hall. by apply Hall. }
  destruct (delay <=? dt)%Z; cbn [fold_left].
  - unfold fire. cbn [rejects]. by apply settle_pending.
  - exact Hp.
Qed.

(** C3 (code defect): a forwarded request with the default timeout whose
    response never arrives.  Its promise is still pending after 29999 ms and
    is rejected with 'Message timeout' at 30000 ms, as the claim says; but
    the timeout leaves the request's [handleMessage] listener registered on
    the socket.  The pending entry is removed only if a frame with the same
    id arrives later, which leaves the rejected promise as it is. *)
Theorem timeout_leaves_listener_registered :
  let '(p, st1) := Examples.pending_request in
  let st2 := advance 30000 st1 in
  let st3 := deliver Examples.ws1 (Parsed Examples.late_response) st2 in
  promises (advance 29999 st1) !! p = Some Pending
  /\ promises st2 !! p = Some (Failed "Message timeout")
  /\ pending_on Examples.ws1 Examples.request_id st1 = true
  /\ pending_on Examples.ws1 Examples.request_id st2 = true
  /\ listeners st2 = listeners st1
  /\ promises st3 !! p = Some (Failed "Message timeout")
  /\ pending_on Examples.ws1 Examples.request_id st3 = false.
Proof. repeat split. Qed.

(** The sibling path: a response that arrives in time resolves the promise,
    clears the timer and unregisters the listener. *)
Lemma response_unregisters_listener :
  let '(p, st1) := Examples.pending_request in
  let st2 := deliver Examples.ws1 (Parsed Examples.late_response) (advance 1200 st1) in
  promises st2 !! p = Some (Resolved (VObj [("ok", VBool true)]))
  /\ timers st2 = []
  /\ pending_on Examples.ws1 Examples.request_id st2 = false.
Proof. repeat split. Qed.

(** C5: forwarding while no executor channel is current returns a promise
    that is already rejected with the no-connected-tab message; no timer is
    started, no listener is registered, nothing is written to any socket and
    no time passes. *)
Theorem no_executor_rejects_immediately c ty payload tmo mid st :
  _ws c = None ->
  let '(p, st') := sendToExecutor c ty payload tmo mid st in
  promises st' !! p = Some (Failed mcpConfig.errors_noConnectedTab)
  /\ timers st' = timers st
  /\ listeners st' = listeners st
  /\ sent st' = sent st
  /\ clock st' = clock st.
Proof.
  intros Hc. unfold sendToExecutor. rewrite Hc. cbn [promises timers listeners sent clock].
  split; [by rewrite lookup_insert_eq | done].
Qed.

Lemma no_executor_rejects_immediately_witness :
  let '(p, st') :=
    sendToExecutor (context Examples.server0) "browser_click" (VObj [("element", VStr "#submit")])
      None Examples.request_id init in
  promises st' !! p = Some (Failed "No connected tab available")
  /\ timers st' = []
  /\ listeners st' = []
  /\ sent st' = []
  /\ clock st' = 0.
Proof.
  apply (no_executor_rejects_immediately (context Examples.server0) "browser_click"
           (VObj [("element", VStr "#submit")]) None Examples.request_id init).
  reflexivity.
Defined.

(** * Further properties of the relay *)

Import Stats.

(** ** What the handlers write *)

Section Outputs.

Variable ws : WebSocket.

Lemma reply_effects_app (a b : list effect) :
  Forall (reply_effect ws) a -> Forall (reply_effect ws) b ->
  Forall (reply_effect ws) (a ++ b)%list.
Proof. intros Ha Hb. apply Forall_app. by split. Qed.

Lemma handleExtensionMessage_replies now v s :
  Forall (reply_effect ws) (snd (handleExtensionMessage now ws v s)).
Proof.
  unfold handleExtensionMessage, bind, lift.
  destruct (get v "type") as [t|e]; cbn [snd]; [|constructor].
  repeat (match goal with |- context [if ?b then _ else _] => destruct b end);
    cbn; repeat constructor.
Qed.

Lemma handleMCPMessage_replies v s :
  Forall (reply_effect ws) (snd (handleMCPMessage ws v s)).
Proof.
  destruct v as [| |b|n|x|xs|props]; [cbn; repeat constructor ..|].
  unfold handleMCPMessage, bind, lift, try_catch. cbn [get].
  set (m := assoc "method" props).
  destruct (strict_eq m (VStr "tools/list")).
  { cbn. repeat constructor. }
  destruct (strict_eq m (VStr "tools/call")).
  { unfold handleToolCall, bind, gets, lift, sendMCPResponse, sendMCPError, ws_send, emit.
    cbn [get].
    destruct (get (assoc "params" props) "name") as [n|e]; [|cbn; repeat constructor].
    destruct (get (assoc "params" props) "arguments") as [a|e]; [|cbn; repeat constructor].
    destruct (find_tool (tools s) n) as [t|];
      [|destruct (template n); cbn; repeat constructor].
    destruct (handle t (context s) a); cbn; repeat constructor. }
  destruct (strict_eq m (VStr "resources/list")).
  { cbn. repeat constructor. }
  destruct (strict_eq m (VStr "resources/read")).
  { unfold handleResourceRead, bind, gets, lift, sendMCPResponse, sendMCPError, ws_send, emit.
    cbn [get].
    destruct (get (assoc "params" props) "uri") as [n|e]; [|cbn; repeat constructor].
    destruct (find_resource (resources s) n) as [t|];
      [|destruct (template n); cbn; repeat constructor].
    destruct (read t (context s) n); cbn; repeat constructor. }
  destruct (template m); cbn; repeat constructor.
Qed.

End Outputs.

Lemma exec_out (m : M unit) s : snd (exec m s) = snd (m s).
Proof. unfold exec. by destruct (m s) as [[r s1] out1]. Qed.

Lemma exec_state (m : M unit) s : fst (exec m s) = snd (fst (m s)).
Proof. unfold exec. by destruct (m s) as [[r s1] out1]. Qed.

Lemma try_catch_out (m : M unit) ws s :
  snd (try_catch m (fun _ => ws_send ws parse_error) s) =
  (snd (m s) ++ match fst (fst (m s)) with
                | Normal _ => []
                | Throw _ => [Send ws parse_error]
                end)%list.
Proof.
  unfold try_catch. destruct (m s) as [[[[]|e] s1] out1]; cbn.
  - by rewrite app_nil_r.
  - reflexivity.
Qed.

(** Every effect of the message listener answers the sending socket, except
    the [close] of the channel that a newly classified executor replaces. *)
Lemma on_message_effects now ws data s e :
  In e (snd (exec (on_message now ws data) s)) ->
  reply_effect ws e
  \/ (exists old v, e = Close old /\ _ws (context s) = Some old
        /\ type_of s ws = unknown /\ data = Parsed v
        /\ isExtensionMessage v = Normal true).
Proof.
  destruct data as [|v].
  { intros [<-|[]]. left. reflexivity. }
  destruct (type_of s ws) eqn:Ht.
  - destruct (isExtensionMessage v) as [[|]|x] eqn:He.
    + destruct (on_message_first_extension now ws v s Ht He) as [reply Heq].
      unfold exec. rewrite Heq. cbn [snd].
      intros Hin. apply in_app_or in Hin as [Hin|[<-|[]]]; [|by left].
      right. destruct (_ws (context s)) as [old|]; [|destruct Hin].
      destruct Hin as [<-|[]]. exists old, v. done.
    + destruct (isMCPMessage v) as [[|]|y] eqn:Hm.
      * unfold exec. rewrite (on_message_first_mcp now ws v s Ht He Hm).
        intros Hin. left.
        pose proof (handleMCPMessage_replies ws v (add_mcp ws (set_connectionType ws mcp s)))
          as Hall.
        rewrite List.Forall_forall in Hall. apply Hall.
        by destruct (handleMCPMessage ws v (add_mcp ws (set_connectionType ws mcp s)))
          as [[r s1] out1].
      * unfold exec. rewrite (on_message_first_neither now ws v s Ht He Hm). intros [].
      * destruct v; discriminate.
    + unfold exec. rewrite on_message_unknown by done.
      unfold try_catch, bind at 1, classify, bind at 1, lift. rewrite He. cbn.
      intros [<-|[]]. by left.
  - rewrite exec_out, on_message_extension by done. rewrite try_catch_out.
    intros Hin. left. apply in_app_or in Hin as [Hin|Hin].
    + pose proof (handleExtensionMessage_replies ws now v s) as Hall.
      rewrite List.Forall_forall in Hall. by apply Hall.
    + destruct (fst (fst (handleExtensionMessage now ws v s)));
        [destruct Hin | destruct Hin as [<-|[]]; reflexivity].
  - rewrite exec_out, on_message_mcp by done. rewrite try_catch_out.
    intros Hin. left. apply in_app_or in Hin as [Hin|Hin].
    + pose proof (handleMCPMessage_replies ws v s) as Hall.
      rewrite List.Forall_forall in Hall. by apply Hall.
    + destruct (fst (fst (handleMCPMessage ws v s)));
        [destruct Hin | destruct Hin as [<-|[]]; reflexivity].
Qed.

(** X1: whatever the state and the frame, as long as handling the frame
    calls no tool handler and no resource reader, every frame written while
    it is handled goes to the socket it came from.  (A tool handler or
    resource reader that is called may itself write to the executor socket
    through the context; of the server's own writes the same holds then
    too.) *)
Theorem replies_go_to_sender now ws data s w m :
  existsb calls_out (snd (exec (on_message now ws data) s)) = false ->
  In (Send w m) (snd (exec (on_message now ws data) s)) -> w = ws.
Proof.
  intros _ Hin. apply on_message_effects in Hin as [H|(old & v & H & _)].
  - exact H.
  - discriminate.
Qed.

Lemma replies_go_to_sender_witness : Examples.ws2 = Examples.ws2.
Proof.
  apply (replies_go_to_sender 5 Examples.ws2 (Parsed Examples.auth)
           Examples.server_with_executor Examples.ws2
           (VObj [("type", VStr "auth_success")])).
  - reflexivity.
  - right. left. reflexivity.
Defined.

(** X2: the server closes a socket in one situation only: the socket is the
    current executor channel and the first frame of another connection has
    just classified that connection as an executor.  No other event closes
    anything. *)
Theorem close_only_on_replacement ev s w :
  In (Close w) (snd (exec (step ev) s)) ->
  _ws (context s) = Some w
  /\ exists now ws v,
       ev = Message now ws (Parsed v)
       /\ type_of s ws = unknown
       /\ isExtensionMessage v = Normal true.
Proof.
  destruct ev as [now ws data|ws]; cbn [step].
  - intros Hin. apply on_message_effects in Hin as [[]|(old & v & [= ->] & Hold & Hu & -> & He)].
    split; [done|]. by exists now, ws, v.
  - unfold exec, on_close, bind, modify, gets, ret.
    destruct (hasWs _ && bool_decide _); intros [].
Qed.

Lemma close_only_on_replacement_witness :
  _ws (context Examples.server_with_executor) = Some Examples.ws1.
Proof.
  apply (close_only_on_replacement (Message 5 Examples.ws2 (Parsed Examples.auth))
           Examples.server_with_executor Examples.ws1).
  left. reflexivity.
Defined.

(** ** What a run keeps *)

(** X3: a frame on a connection that is already classified changes nothing of
    the server state, whatever the frame holds: the handlers only answer. *)
Theorem classified_frame_keeps_state now ws data (s : Server.state) :
  type_of s ws <> unknown ->
  fst (exec (on_message now ws data) s) = s.
Proof.
  intros Ht. pose proof (on_message_cases now ws data s) as Hc.
  destruct (exec (on_message now ws data) s) as [s' out]. cbn [fst].
  destruct Hc as [->|[(Hu & _)|(Hu & _)]]; [done| |]; by destruct Ht.
Qed.

Lemma classified_frame_keeps_state_witness :
  fst (exec (on_message 9 Examples.ws1 (Parsed Examples.click_without_element))
            Examples.server_with_controller)
  = Examples.server_with_controller.
Proof.
  apply (classified_frame_keeps_state 9 Examples.ws1 (Parsed Examples.click_without_element)
           Examples.server_with_controller).
  discriminate.
Defined.

Lemma step_type_of ev (s : Server.state) ws :
  type_of s ws <> unknown -> type_of (fst (exec (step ev) s)) ws = type_of s ws.
Proof.
  intros Ht. destruct ev as [now w data|w]; cbn [step].
  - pose proof (on_message_cases now w data s) as Hc.
    destruct (exec (on_message now w data) s) as [s' out]. cbn [fst].
    destruct Hc as [->|[(Hu & ->)|(Hu & -> & _)]]; [done| |].
    + rewrite type_of_add_mcp. apply type_of_set_ne. intros ->. by destruct Ht.
    + rewrite type_of_set_context, type_of_add_extension.
      apply type_of_set_ne. intros ->. by destruct Ht.
  - unfold exec, on_close, bind, modify, gets, ret.
    destruct (hasWs _ && bool_decide _); reflexivity.
Qed.

(** X4: classification is permanent: once a connection is an executor or a
    controller, no sequence of frames and closes, on any connections,
    changes its role. *)
Theorem classification_is_permanent evs (s : Server.state) ws :
  type_of s ws <> unknown ->
  type_of (fst (run evs s)) ws = type_of s ws.
Proof.
  revert s. induction evs as [|ev evs IH]; intros s Ht; [reflexivity|].
  rewrite run_cons. cbn [fst].
  rewrite IH; rewrite step_type_of; done.
Qed.

Lemma classification_is_permanent_witness :
  type_of
    (fst (run [Message 1 Examples.ws1 (Parsed Examples.ping);
               Message 2 Examples.ws1 (Parsed Examples.stray);
               Closed Examples.ws1]
              Examples.server_with_controller))
    Examples.ws1 = mcp.
Proof.
  apply (classification_is_permanent
           [Message 1 Examples.ws1 (Parsed Examples.ping);
            Message 2 Examples.ws1 (Parsed Examples.stray);
            Closed Examples.ws1]
           Examples.server_with_controller Examples.ws1).
  discriminate.
Defined.

Lemma step_registry ev (s : Server.state) :
  tools (fst (exec (step ev) s)) = tools s
  /\ resources (fst (exec (step ev) s)) = resources s.
Proof.
  destruct ev as [now w data|w]; cbn [step].
  - pose proof (on_message_cases now w data s) as Hc.
    destruct (exec (on_message now w data) s) as [s' out]. cbn [fst].
    destruct Hc as [->|[(Hu & ->)|(Hu & -> & _)]]; done.
  - unfold exec, on_close, bind, modify, gets, ret.
    destruct (hasWs _ && bool_decide _); done.
Qed.

(** The registry is fixed at construction: no run changes the tool list or
    the resource list of the server. *)
Lemma registry_is_immutable evs (s : Server.state) :
  tools (fst (run evs s)) = tools s /\ resources (fst (run evs s)) = resources s.
Proof.
  revert s. induction evs as [|ev evs IH]; intros s; [done|].
  rewrite run_cons. cbn [fst].
  destruct (IH (fst (exec (step ev) s))) as [-> ->]. apply step_registry.
Qed.

Lemma step_roles_consistent ev (s : Server.state) :
  roles_consistent s -> roles_consistent (fst (exec (step ev) s)).
Proof.
  intros (Hext & Hmcp & Hcur). destruct ev as [now w data|w]; cbn [step].
  - pose proof (on_message_cases now w data s) as Hc.
    destruct (exec (on_message now w data) s) as [s' out]. cbn [fst].
    destruct Hc as [->|[(Hu & ->)|(Hu & -> & _)]]; [done| |].
    + split; [|split].
      * intros x Hx. rewrite type_of_add_mcp.
        destruct (decide (w = x)) as [->|Hne].
        -- apply Hext in Hx. congruence.
        -- rewrite type_of_set_ne by done. by apply Hext.
      * intros x Hx. rewrite type_of_add_mcp. cbn in Hx.
        destruct (decide (w = x)) as [->|Hne]; [apply type_of_set_eq|].
        rewrite type_of_set_ne by done. apply Hmcp.
        apply elem_of_union in Hx as [Hx|Hx]; [|done].
        apply elem_of_singleton in Hx. congruence.
      * intros x Hx. by apply Hcur.
    + split; [|split].
      * intros x Hx. rewrite type_of_set_context, type_of_add_extension. cbn in Hx.
        destruct (decide (w = x)) as [->|Hne]; [apply type_of_set_eq|].
        rewrite type_of_set_ne by done. apply Hext.
        apply elem_of_union in Hx as [Hx|Hx]; [|done].
        apply elem_of_singleton in Hx. congruence.
      * intros x Hx. rewrite type_of_set_context, type_of_add_extension.
        destruct (decide (w = x)) as [->|Hne].
        -- apply Hmcp in Hx. congruence.
        -- rewrite type_of_set_ne by done. by apply Hmcp.
      * intros x [= <-]. cbn. apply elem_of_union_l. by apply elem_of_singleton.
  - unfold exec, on_close, bind, modify, gets, ret, hasWs. cbn [context delete_connection].
    destruct (_ws (context s)) as [cur|] eqn:Hc; cbn [andb].
    + case_bool_decide as Hd; cbn [fst].
      * split; [|split].
        -- intros x [Hx _]%elem_of_difference. by apply Hext.
        -- intros x [Hx _]%elem_of_difference. by apply Hmcp.
        -- intros x. discriminate.
      * split; [|split].
        -- intros x [Hx _]%elem_of_difference. by apply Hext.
        -- intros x [Hx _]%elem_of_difference. by apply Hmcp.
        -- intros x Hx. cbn in Hx |- *. rewrite Hc in Hx. injection Hx as <-.
           apply elem_of_difference. split; [by apply Hcur|].
           intros ->%elem_of_singleton. by destruct Hd.
    + cbn [fst]. split; [|split].
      * intros x [Hx _]%elem_of_difference. by apply Hext.
      * intros x [Hx _]%elem_of_difference. by apply Hmcp.
      * intros x Hx. cbn in Hx. congruence.
Qed.

Lemma run_roles_consistent evs (s : Server.state) :
  roles_consistent s -> roles_consistent (fst (run evs s)).
Proof.
  revert s. induction evs as [|ev evs IH]; intros s Hs; [done|].
  rewrite run_cons. cbn [fst]. apply IH. by apply step_roles_consistent.
Qed.

Lemma new_roles_consistent ts rs : roles_consistent (new ts rs).
Proof.
  split; [|split].
  - intros x Hx. by apply not_elem_of_empty in Hx.
  - intros x Hx. by apply not_elem_of_empty in Hx.
  - intros x. discriminate.
Qed.

(** X5: in every state a server reaches, no connection is in both role sets,
    so the total of [getConnectionStats] counts every live classified
    connection exactly once. *)
Theorem stats_count_each_connection_once ts rs evs :
  let s := fst (run evs (new ts rs)) in
  extensionConnections s ## mcpConnections s
  /\ totalConnections (getConnectionStats s)
     = size (extensionConnections s ∪ mcpConnections s).
Proof.
  intros s.
  destruct (run_roles_consistent evs (new ts rs) (new_roles_consistent ts rs))
    as (Hext & Hmcp & _). fold s in Hext, Hmcp.
  assert (Hd : extensionConnections s ## mcpConnections s).
  { apply elem_of_disjoint. intros x Hx Hy. apply Hext in Hx. apply Hmcp in Hy. congruence. }
  split; [exact Hd|]. cbn [getConnectionStats totalConnections].
  by rewrite size_union.
Qed.

(** X6: in every state a server reaches, the current executor channel is a
    connection classified as an executor and a member of the executor set. *)
Theorem current_channel_is_live_executor ts rs evs ws :
  _ws (context (fst (run evs (new ts rs)))) = Some ws ->
  ws ∈ extensionConnections (fst (run evs (new ts rs)))
  /\ type_of (fst (run evs (new ts rs))) ws = extension.
Proof.
  intros Hc.
  destruct (run_roles_consistent evs (new ts rs) (new_roles_consistent ts rs))
    as (Hext & _ & Hcur).
  split; [by apply Hcur | apply Hext; by apply Hcur].
Qed.

Lemma current_channel_is_live_executor_witness :
  type_of
    (fst (run [Message 0 Examples.ws1 (Parsed Examples.ping);
               Message 5 Examples.ws2 (Parsed Examples.auth);
               Closed Examples.ws1]
              (new [] [])))
    Examples.ws2 = extension.
Proof.
  apply (current_channel_is_live_executor [] []
           [Message 0 Examples.ws1 (Parsed Examples.ping);
            Message 5 Examples.ws2 (Parsed Examples.auth);
            Closed Examples.ws1] Examples.ws2).
  reflexivity.
Defined.

(** X7: along every run of a fresh server, a connection classified as an
    executor is the current channel, or the server has closed it, or its own
    close has arrived: the server never keeps two executor connections
    open. *)
Theorem superseded_executors_are_closed ts rs evs ws :
  type_of (fst (Server.run evs (new ts rs))) ws = extension ->
  _ws (context (fst (Server.run evs (new ts rs)))) = Some ws
  \/ In (Close ws) (snd (Server.run evs (new ts rs)))
  \/ In (Closed ws) evs.
Proof.
  intros Ht.
  assert (Hinv : exclusive (new ts rs) [] []) by (intros w Hw; discriminate).
  apply (run_exclusive evs) in Hinv. cbn [app] in Hinv. by apply Hinv.
Qed.

Lemma superseded_executors_are_closed_witness :
  _ws (context (fst (Server.run [Message 0 Examples.ws1 (Parsed Examples.ping);
                                 Message 5 Examples.ws2 (Parsed Examples.auth)]
                                (new [] [])))) = Some Examples.ws1
  \/ In (Close Examples.ws1)
        (snd (Server.run [Message 0 Examples.ws1 (Parsed Examples.ping);
                          Message 5 Examples.ws2 (Parsed Examples.auth)]
                         (new [] [])))
  \/ In (Closed Examples.ws1)
        [Message 0 Examples.ws1 (Parsed Examples.ping);
         Message 5 Examples.ws2 (Parsed Examples.auth)].
Proof.
  apply (superseded_executors_are_closed [] []
           [Message 0 Examples.ws1 (Parsed Examples.ping);
            Message 5 Examples.ws2 (Parsed Examples.auth)] Examples.ws1).
  reflexivity.
Defined.

(** ** Frames on an executor connection *)

Lemma strict_eq_str' v k : strict_eq v (VStr k) = true -> v = VStr k.
Proof.
  destruct v; cbn; try discriminate.
  intros H. apply String.eqb_eq in H. by subst.
Qed.

(** X8: on an executor connection, a frame that is not [null] and whose
    [type] is not one of auth, capabilities and ping (a forwarded response,
    an [action_result], a [pong], a number, ...) is dropped: nothing is
    sent and the state is as before. *)
Theorem executor_ignores_other_types now ws v (s : Server.state) :
  type_of s ws = extension ->
  isExtensionMessage v = Normal false ->
  on_message now ws (Parsed v) s = (Normal tt, s, []).
Proof.
  intros Ht He. rewrite on_message_extension by done.
  unfold try_catch, handleExtensionMessage, bind, lift.
  unfold isExtensionMessage in He.
  destruct (get v "type") as [t|e]; [|discriminate].
  assert (Hi : includes executor_keywords t = false).
  { destruct (includes executor_keywords t) eqn:Hi; [|done].
    apply includes_str in Hi as (k & -> & Hin).
    cbn in Hin. destruct Hin as [<-|[<-|[<-|[]]]]; discriminate. }
  destruct (strict_eq t (VStr "auth")) eqn:E1.
  { apply strict_eq_str' in E1 as ->. discriminate. }
  destruct (strict_eq t (VStr "capabilities")) eqn:E2.
  { apply strict_eq_str' in E2 as ->. discriminate. }
  destruct (strict_eq t (VStr "ping")) eqn:E3.
  { apply strict_eq_str' in E3 as ->. discriminate. }
  reflexivity.
Qed.

Lemma executor_ignores_other_types_witness :
  on_message 3 Examples.ws1 (Parsed Examples.late_response) Examples.server_with_executor
  = (Normal tt, Examples.server_with_executor, []).
Proof.
  apply (executor_ignores_other_types 3 Examples.ws1 Examples.late_response
           Examples.server_with_executor); reflexivity.
Defined.

(** On an executor connection, [auth] is answered with [auth_success]
    whatever token it carries, [capabilities] with [capabilities_received],
    and [ping] with a [pong] stamped with the current time; each with that
    one frame and no change of state. *)
Lemma executor_control_replies now ws props (s : Server.state) :
  type_of s ws = extension ->
  (assoc "type" props = VStr "auth" ->
   on_message now ws (Parsed (VObj props)) s
   = (Normal tt, s, [Send ws (VObj [("type", VStr "auth_success")])]))
  /\ (assoc "type" props = VStr "capabilities" ->
      on_message now ws (Parsed (VObj props)) s
      = (Normal tt, s, [Send ws (VObj [("type", VStr "capabilities_received")])]))
  /\ (assoc "type" props = VStr "ping" ->
      on_message now ws (Parsed (VObj props)) s
      = (Normal tt, s, [Send ws (VObj [("type", VStr "pong"); ("timestamp", VNum now)])])).
Proof.
  intros Ht. repeat split; intros Hk; rewrite on_message_extension by done;
    unfold try_catch, handleExtensionMessage, bind, lift; cbn [get]; rewrite Hk; reflexivity.
Qed.

Lemma executor_control_replies_witness :
  on_message 42 Examples.ws1 (Parsed Examples.ping) Examples.server_with_executor
  = (Normal tt, Examples.server_with_executor,
     [Send Examples.ws1 (VObj [("type", VStr "pong"); ("timestamp", VNum 42)])]).
Proof.
  destruct (executor_control_replies 42 Examples.ws1 [("type", VStr "ping")]
              Examples.server_with_executor) as (_ & _ & H).
  - reflexivity.
  - apply H. reflexivity.
Defined.

(** X9: the frame [null] is answered like a malformed frame on every
    connection, classified or not: the parse-error envelope is sent and the
    state is as before. *)
Theorem null_frame_is_parse_error now ws (s : Server.state) :
  on_message now ws (Parsed VNull) s = (Normal tt, s, [Send ws parse_error]).
Proof.
  destruct (type_of s ws) eqn:Ht.
  - rewrite on_message_unknown by done. reflexivity.
  - rewrite on_message_extension by done. reflexivity.
  - rewrite on_message_mcp by done. reflexivity.
Qed.

(** ** Controller requests: the error paths *)

Import Methods.

Lemma strict_eq_ne v k : v <> VStr k -> strict_eq v (VStr k) = false.
Proof.
  intros H. destruct (strict_eq v (VStr k)) eqn:E; [|done].
  apply strict_eq_str' in E. by destruct H.
Qed.

(** X10: a controller frame whose [method] is none of tools/list, tools/call,
    resources/list and resources/read (a response envelope without method
    included) is answered with one error envelope carrying the id of the
    frame: code -32601 and the text 'Method not found: ' followed by the
    method when the method converts to a string; code -32603 and the text
    'Internal error' when the conversion raises (the method is an object
    with a [toString] member, or an array holding one). *)
Theorem unknown_method_rejected now ws props (s : Server.state) :
  controller_frame s ws (VObj props) ->
  (forall k, In k known_methods -> assoc "method" props <> VStr k) ->
  snd (exec (on_message now ws (Parsed (VObj props))) s) =
  [Send ws
     (if raises (assoc "method" props)
      then VObj [("jsonrpc", VStr "2.0"); ("id", assoc "id" props);
                 ("error", VObj [("code", VNum (-32603));
                                 ("message", VStr "Internal error")])]
      else VObj [("jsonrpc", VStr "2.0"); ("id", assoc "id" props);
                 ("error",
                  VObj [("code", VNum (-32601));
                        ("message",
                         VStr ("Method not found: " ++ to_string (assoc "method" props)))])])].
Proof.
  intros Hc Hm.
  destruct (on_message_controller now ws props s Hc) as (s1 & Heq & _).
  rewrite exec_out, Heq.
  unfold handleMCPMessage, bind at 1, lift at 1, try_catch. cbn [get].
  rewrite !strict_eq_ne by (apply Hm; cbn; tauto).
  unfold template. destruct (raises (assoc "method" props)); reflexivity.
Qed.

Lemma unknown_method_rejected_witness :
  snd (exec (on_message 0 Examples.ws1
               (Parsed (VObj [("jsonrpc", VStr "2.0"); ("id", VNum 4);
                              ("method", VStr "prompts/list")])))
            Examples.server_with_controller) =
  [Send Examples.ws1
     (VObj [("jsonrpc", VStr "2.0"); ("id", VNum 4);
            ("error", VObj [("code", VNum (-32601));
                            ("message", VStr "Method not found: prompts/list")])])].
Proof.
  apply (unknown_method_rejected 0 Examples.ws1
           [("jsonrpc", VStr "2.0"); ("id", VNum 4); ("method", VStr "prompts/list")]
           Examples.server_with_controller).
  - left. reflexivity.
  - intros k Hin. cbn in Hin.
    repeat (destruct Hin as [<-|Hin]; [discriminate|]). destruct Hin.
Defined.

(** A request whose [method] is the object [{"toString":1}]: the text of the
    'Method not found' message cannot be built, and the answer is the
    'Internal error' envelope. *)
Lemma object_method_is_internal_error :
  snd (exec (on_message 0 Examples.ws1
               (Parsed (VObj [("jsonrpc", VStr "2.0"); ("id", VNum 4);
                              ("method", VObj [("toString", VNum 1)])])))
            Examples.server_with_controller) =
  [Send Examples.ws1
     (VObj [("jsonrpc", VStr "2.0"); ("id", VNum 4);
            ("error", VObj [("code", VNum (-32603));
                            ("message", VStr "Internal error")])])].
Proof. reflexivity. Qed.

(** A [method] that is a number is printed as [Number::toString] prints it:
    in exponent form from 10^21 on. *)
Lemma number_method_printed :
  snd (exec (on_message 0 Examples.ws1
               (Parsed (VObj [("jsonrpc", VStr "2.0"); ("id", VNum 4);
                              ("method", VNum 1000000000000000000000)])))
            Examples.server_with_controller) =
  [Send Examples.ws1
     (VObj [("jsonrpc", VStr "2.0"); ("id", VNum 4);
            ("error", VObj [("code", VNum (-32601));
                            ("message", VStr "Method not found: 1e+21")])])].
Proof. vm_compute. reflexivity. Qed.

(** X11: a [tools/call] or [resources/read] request without [params] (absent
    or [null]) is answered with the error envelope of code -32603 and text
    'Internal error', with the id of the request; no tool handler and no
    resource reader is invoked. *)
Theorem missing_params_internal_error now ws props k (s : Server.state) :
  controller_frame s ws (VObj props) ->
  In k methods_with_params ->
  assoc "method" props = VStr k ->
  assoc "params" props = VUndefined \/ assoc "params" props = VNull ->
  snd (exec (on_message now ws (Parsed (VObj props))) s) =
  [Send ws (VObj [("jsonrpc", VStr "2.0"); ("id", assoc "id" props);
                  ("error", VObj [("code", VNum (-32603));
                                  ("message", VStr "Internal error")])])].
Proof.
  intros Hc Hk Hm Hp.
  destruct (on_message_controller now ws props s Hc) as (s1 & Heq & _).
  rewrite exec_out, Heq.
  unfold handleMCPMessage, bind at 1, lift at 1, try_catch. cbn [get]. rewrite Hm.
  cbn in Hk. destruct Hk as [<-|[<-|[]]].
  - change (strict_eq (VStr "tools/call") (VStr "tools/list")) with false.
    change (strict_eq (VStr "tools/call") (VStr "tools/call")) with true. cbv iota.
    unfold handleToolCall, bind, lift. cbn [get].
    destruct Hp as [-> | ->]; reflexivity.
  - change (strict_eq (VStr "resources/read") (VStr "tools/list")) with false.
    change (strict_eq (VStr "resources/read") (VStr "tools/call")) with false.
    change (strict_eq (VStr "resources/read") (VStr "resources/list")) with false.
    change (strict_eq (VStr "resources/read") (VStr "resources/read")) with true. cbv iota.
    unfold handleResourceRead, bind, lift. cbn [get].
    destruct Hp as [-> | ->]; reflexivity.
Qed.

Lemma missing_params_internal_error_witness :
  snd (exec (on_message 0 Examples.ws1
               (Parsed (VObj [("jsonrpc", VStr "2.0"); ("id", VNum 3);
                              ("method", VStr "tools/call")])))
            Examples.server_with_controller) =
  [Send Examples.ws1
     (VObj [("jsonrpc", VStr "2.0"); ("id", VNum 3);
            ("error", VObj [("code", VNum (-32603));
                            ("message", VStr "Internal error")])])].
Proof.
  apply (missing_params_internal_error 0 Examples.ws1
           [("jsonrpc", VStr "2.0"); ("id", VNum 3); ("method", VStr "tools/call")]
           "tools/call" Examples.server_with_controller).
  - left. reflexivity.
  - left. reflexivity.
  - reflexivity.
  - left. reflexivity.
Defined.

(** What [handleMCPMessage] writes for an object: at most one call of a
    handler or reader, then one envelope that carries the protocol version
    and the id of the frame. *)
Lemma handleMCPMessage_one_reply ws props (s : Server.state) :
  exists pre reply,
    snd (handleMCPMessage ws (VObj props) s) = (pre ++ [Send ws reply])%list
    /\ (pre = [] \/ (exists t a, pre = [Invoke t a]) \/ (exists u a, pre = [Read u a]))
    /\ get reply "jsonrpc" = Normal (VStr "2.0")
    /\ get reply "id" = Normal (assoc "id" props).
Proof.
  unfold handleMCPMessage, bind at 1, lift at 1, try_catch. cbn [get].
  set (m := assoc "method" props).
  destruct (strict_eq m (VStr "tools/list")).
  { eexists [], _. cbn. split; [reflexivity|]. split; [by left|]. split; reflexivity. }
  destruct (strict_eq m (VStr "tools/call")).
  { unfold handleToolCall, bind, gets, lift, sendMCPResponse, sendMCPError, ws_send, emit.
    cbn [get].
    destruct (get (assoc "params" props) "name") as [n|e];
      [|eexists [], _; cbn; split; [reflexivity|]; split; [by left|]; split; reflexivity].
    destruct (get (assoc "params" props) "arguments") as [a|e];
      [|eexists [], _; cbn; split; [reflexivity|]; split; [by left|]; split; reflexivity].
    destruct (find_tool (tools s) n) as [t|];
      [|destruct (template n);
        eexists [], _; cbn; (split; [reflexivity|]); (split; [by left|]); split; reflexivity].
    destruct (handle t (context s) a);
      eexists [Invoke _ _], _; cbn; (split; [reflexivity|]);
      (split; [right; left; eauto|]); split; reflexivity. }
  destruct (strict_eq m (VStr "resources/list")).
  { eexists [], _. cbn. split; [reflexivity|]. split; [by left|]. split; reflexivity. }
  destruct (strict_eq m (VStr "resources/read")).
  { unfold handleResourceRead, bind, gets, lift, sendMCPResponse, sendMCPError, ws_send, emit.
    cbn [get].
    destruct (get (assoc "params" props) "uri") as [n|e];
      [|eexists [], _; cbn; split; [reflexivity|]; split; [by left|]; split; reflexivity].
    destruct (find_resource (resources s) n) as [t|];
      [|destruct (template n);
        eexists [], _; cbn; (split; [reflexivity|]); (split; [by left|]); split; reflexivity].
    destruct (read t (context s) n);
      eexists [Read _ _], _; cbn; (split; [reflexivity|]);
      (split; [right; right; eauto|]); split; reflexivity. }
  destruct (template m);
    eexists [], _; cbn; (split; [reflexivity|]); (split; [by left|]); split; reflexivity.
Qed.

(** X12: every controller frame that is an object gets exactly one answer, on
    the socket it came from, carrying "jsonrpc":"2.0" and the frame's own
    id (absent when the frame has none); before it at most one tool handler
    or resource reader is called.  No request is left unanswered and none is
    answered twice. *)
Theorem controller_frame_answered_once now ws props (s : Server.state) :
  controller_frame s ws (VObj props) ->
  exists pre reply,
    snd (exec (on_message now ws (Parsed (VObj props))) s) = (pre ++ [Send ws reply])%list
    /\ (pre = [] \/ (exists t a, pre = [Invoke t a]) \/ (exists u a, pre = [Read u a]))
    /\ get reply "jsonrpc" = Normal (VStr "2.0")
    /\ get reply "id" = Normal (assoc "id" props).
Proof.
  intros Hc.
  destruct (on_message_controller now ws props s Hc) as (s1 & Heq & _).
  rewrite exec_out, Heq. apply handleMCPMessage_one_reply.
Qed.

Lemma controller_frame_answered_once_witness :
  exists pre reply,
    snd (exec (on_message 0 Examples.ws1 (Parsed Examples.click_without_element))
              Examples.server_with_controller) = (pre ++ [Send Examples.ws1 reply])%list
    /\ get reply "id" = Normal (VNum 7).
Proof.
  destruct (controller_frame_answered_once 0 Examples.ws1
              [("jsonrpc", VStr "2.0"); ("id", VNum 7); ("method", VStr "tools/call");
               ("params", VObj [("name", VStr "click"); ("arguments", VObj [])])]
              Examples.server_with_controller) as (pre & reply & Hout & _ & _ & Hid).
  - left. reflexivity.
  - exists pre, reply. split; [exact Hout | exact Hid].
Defined.

(** ** Resources *)

Lemma find_resource_none rs u :
  (forall r, In r rs -> VStr (uri (rschema r)) <> u) -> find_resource rs u = None.
Proof.
  intros H. unfold find_resource. induction rs as [|r rs IH]; [reflexivity|].
  cbn [List.find]. destruct (strict_eq (VStr (uri (rschema r))) u) eqn:E.
  - apply strict_eq_str in E. exfalso. apply (H r); [by left | done].
  - apply IH. intros r' Hin. apply H. by right.
Qed.

(** X13: a [resources/read] request whose [params.uri] is the uri of no
    registered resource is answered with one error envelope carrying the id
    of the request, and no reader is called: code -32602 and the text
    'Resource not found: ' followed by the uri when the uri converts to a
    string; code -32603 and the text 'Internal error' when the conversion
    raises (the uri is an object with a [toString] member, or an array
    holding one). *)
Theorem unknown_resource_rejected now ws props u (s : Server.state) :
  controller_frame s ws (VObj props) ->
  assoc "method" props = VStr "resources/read" ->
  get (assoc "params" props) "uri" = Normal u ->
  (forall r, In r (resources s) -> VStr (uri (rschema r)) <> u) ->
  snd (exec (on_message now ws (Parsed (VObj props))) s) =
  [Send ws
     (if raises u
      then VObj [("jsonrpc", VStr "2.0"); ("id", assoc "id" props);
                 ("error", VObj [("code", VNum (-32603));
                                 ("message", VStr "Internal error")])]
      else VObj [("jsonrpc", VStr "2.0"); ("id", assoc "id" props);
                 ("error", VObj [("code", VNum (-32602));
                                 ("message", VStr ("Resource not found: " ++ to_string u))])])].
Proof.
  intros Hc Hm Hu Hnone.
  destruct (on_message_controller now ws props s Hc) as (s1 & Heq & _ & Hr & _).
  rewrite exec_out, Heq.
  unfold handleMCPMessage, bind at 1, lift at 1, try_catch. cbn [get]. rewrite Hm.
  change (strict_eq (VStr "resources/read") (VStr "tools/list")) with false.
  change (strict_eq (VStr "resources/read") (VStr "tools/call")) with false.
  change (strict_eq (VStr "resources/read") (VStr "resources/list")) with false.
  change (strict_eq (VStr "resources/read") (VStr "resources/read")) with true. cbv iota.
  unfold handleResourceRead, bind, lift, gets. cbn [get]. rewrite Hu.
  rewrite Hr, (find_resource_none _ _ Hnone).
  unfold template. destruct (raises u); reflexivity.
Qed.

Lemma unknown_resource_rejected_witness :
  snd (exec (on_message 0 Examples.ws1
               (Parsed (VObj [("jsonrpc", VStr "2.0"); ("id", VNum 8);
                              ("method", VStr "resources/read");
                              ("params", VObj [("uri", VStr "page://current")])])))
            Examples.server_with_controller) =
  [Send Examples.ws1
     (VObj [("jsonrpc", VStr "2.0"); ("id", VNum 8);
            ("error", VObj [("code", VNum (-32602));
                            ("message", VStr "Resource not found: page://current")])])].
Proof.
  apply (unknown_resource_rejected 0 Examples.ws1
           [("jsonrpc", VStr "2.0"); ("id", VNum 8); ("method", VStr "resources/read");
            ("params", VObj [("uri", VStr "page://current")])]
           (VStr "page://current") Examples.server_with_controller).
  - left. reflexivity.
  - reflexivity.
  - reflexivity.
  - intros r [].
Defined.

(** A [resources/read] whose [uri] is the array [[{"toString":1}]]: the
    answer is the 'Internal error' envelope. *)
Lemma array_uri_is_internal_error :
  snd (exec (on_message 0 Examples.ws1
               (Parsed (VObj [("jsonrpc", VStr "2.0"); ("id", VNum 8);
                              ("method", VStr "resources/read");
                              ("params",
                               VObj [("uri", VArr [VObj [("toString", VNum 1)]])])])))
            Examples.server_with_controller) =
  [Send Examples.ws1
     (VObj [("jsonrpc", VStr "2.0"); ("id", VNum 8);
            ("error", VObj [("code", VNum (-32603));
                            ("message", VStr "Internal error")])])].
Proof. reflexivity. Qed.

(** X14: the server started by the entry point never has a resource: after any
    run, [resources/list] is answered with an empty list. *)
Theorem static_server_lists_no_resources handler json evs now ws props :
  let s := fst (run evs (Registry.startServer handler json)) in
  controller_frame s ws (VObj props) ->
  assoc "method" props = VStr "resources/list" ->
  snd (exec (on_message now ws (Parsed (VObj props))) s) =
  [Send ws (VObj [("jsonrpc", VStr "2.0"); ("id", assoc "id" props);
                  ("result", VObj [("resources", VArr [])])])].
Proof.
  intros s Hc Hm.
  destruct (on_message_controller now ws props s Hc) as (s1 & Heq & _ & Hr & _).
  rewrite exec_out, Heq.
  unfold handleMCPMessage, bind at 1, lift at 1, try_catch. cbn [get]. rewrite Hm.
  change (strict_eq (VStr "resources/list") (VStr "tools/list")) with false.
  change (strict_eq (VStr "resources/list") (VStr "tools/call")) with false.
  change (strict_eq (VStr "resources/list") (VStr "resources/list")) with true. cbv iota.
  unfold handleResourcesList, bind, lift, gets, sendMCPResponse, ws_send, emit. cbn [get].
  rewrite Hr. unfold s.
  destruct (registry_is_immutable evs (Registry.startServer handler json)) as [_ ->].
  reflexivity.
Qed.

Lemma static_server_lists_no_resources_witness :
  snd (exec (on_message 0 Examples.ws1
               (Parsed (VObj [("jsonrpc", VStr "2.0"); ("id", VNum 2);
                              ("method", VStr "resources/list")])))
            (fst (run [Message 0 Examples.ws1 (Parsed Examples.tools_list_request)]
                      (Registry.startServer Examples.echo_handler Examples.object_schema)))) =
  [Send Examples.ws1 (VObj [("jsonrpc", VStr "2.0"); ("id", VNum 2);
                            ("result", VObj [("resources", VArr [])])])].
Proof.
  apply (static_server_lists_no_resources Examples.echo_handler Examples.object_schema
           [Message 0 Examples.ws1 (Parsed Examples.tools_list_request)] 0 Examples.ws1
           [("jsonrpc", VStr "2.0"); ("id", VNum 2); ("method", VStr "resources/list")]).
  - left. reflexivity.
  - reflexivity.
Defined.

(** ** Closing *)

Lemma state_eq (a b : Server.state) :
  context a = context b -> tools a = tools b -> resources a = resources b ->
  extensionConnections a = extensionConnections b ->
  mcpConnections a = mcpConnections b ->
  connectionType a = connectionType b ->
  a = b.
Proof. destruct a, b; cbn; intros; by subst. Qed.

(** X15: in every state a server reaches, the close of a connection that was
    never classified changes nothing and sends nothing. *)
Theorem unclassified_close_leaves_no_trace ts rs evs ws :
  let s := fst (run evs (new ts rs)) in
  type_of s ws = unknown ->
  exec (on_close ws) s = (s, []).
Proof.
  intros s Ht.
  destruct (run_roles_consistent evs (new ts rs) (new_roles_consistent ts rs))
    as (Hext & Hmcp & Hcur). fold s in Hext, Hmcp, Hcur.
  assert (He : ws ∉ extensionConnections s).
  { intros Hin. apply Hext in Hin. congruence. }
  assert (Hm : ws ∉ mcpConnections s).
  { intros Hin. apply Hmcp in Hin. congruence. }
  assert (Hc : _ws (context s) <> Some ws).
  { intros Hin. apply Hcur in Hin. done. }
  unfold exec, on_close, bind, modify, gets, ret. cbn [context delete_connection].
  rewrite (bool_decide_eq_false_2 _ Hc), andb_false_r. cbn.
  f_equal. apply state_eq; cbn; try done.
  - apply difference_disjoint_L. by apply disjoint_singleton_r.
  - apply difference_disjoint_L. by apply disjoint_singleton_r.
Qed.

Lemma unclassified_close_leaves_no_trace_witness :
  exec (on_close Examples.ws2)
       (fst (run [Message 0 Examples.ws1 (Parsed Examples.ping);
                  Message 1 Examples.ws2 (Parsed Examples.stray)] (new [] [])))
  = (fst (run [Message 0 Examples.ws1 (Parsed Examples.ping);
               Message 1 Examples.ws2 (Parsed Examples.stray)] (new [] [])), []).
Proof.
  apply (unclassified_close_leaves_no_trace [] []
           [Message 0 Examples.ws1 (Parsed Examples.ping);
            Message 1 Examples.ws2 (Parsed Examples.stray)] Examples.ws2).
  reflexivity.
Defined.

(** X16: closing is idempotent: a second close of the same connection changes
    nothing more. *)
Theorem close_is_idempotent ws (s : Server.state) :
  exec (on_close ws) (fst (exec (on_close ws) s)) = (fst (exec (on_close ws) s), []).
Proof.
  assert (Hd : forall X : gset WebSocket, X ∖ {[ws]} ∖ {[ws]} = X ∖ {[ws]}).
  { intros X. rewrite difference_difference_l_L. by rewrite union_idemp_L. }
  unfold exec, on_close, bind, modify, gets, ret, hasWs. cbn [context delete_connection].
  destruct (_ws (context s)) as [cur|] eqn:Hcur; cbn [andb].
  - case_bool_decide as Hc; cbn [fst context set_context_ws delete_connection _ws andb].
    + f_equal. apply state_eq; cbn; by rewrite ?Hd.
    + rewrite Hcur. cbn [andb]. rewrite (bool_decide_eq_false_2 _ Hc). cbn.
      f_equal. apply state_eq; cbn; by rewrite ?Hd.
  - cbn [fst context delete_connection]. rewrite Hcur. cbn.
    f_equal. apply state_eq; cbn; by rewrite ?Hd.
Qed.

(** ** The sender: responses, failures and settled promises *)

Import Loop.

Lemma settle_keeps_settled p q r r' (ps : gmap nat promise) :
  ps !! p = Some r -> r <> Pending -> settle q r' ps !! p = Some r.
Proof.
  intros Hp Hr. destruct (decide (q = p)) as [->|Hne].
  - rewrite settle_settled; [done|]. rewrite Hp. congruence.
  - by rewrite settle_other.
Qed.

Lemma handleMessage_promise_other l data st p :
  resolves l <> p -> promises (handleMessage l data st) !! p = promises st !! p.
Proof.
  intros Hne. unfold handleMessage.
  destruct (JSON_parse data) as [response|]; [|done].
  destruct (get response "id") as [i|]; [|done].
  destruct (get response "payload") as [pl|]; [|done].
  destruct (strict_eq i (VStr (messageId l))); [|done].
  cbn [promises]. by apply settle_other.
Qed.

Lemma handleMessage_keeps_settled l data st p r :
  promises st !! p = Some r -> r <> Pending ->
  promises (handleMessage l data st) !! p = Some r.
Proof.
  intros Hp Hr. unfold handleMessage.
  destruct (JSON_parse data) as [response|]; [|done].
  destruct (get response "id") as [i|]; [|done].
  destruct (get response "payload") as [pl|]; [|done].
  destruct (strict_eq i (VStr (messageId l))); [|done].
  cbn [promises]. by apply settle_keeps_settled.
Qed.

Lemma fold_handleMessage_keeps_settled ls data st p r :
  promises st !! p = Some r -> r <> Pending ->
  promises (fold_left (fun acc l => handleMessage l data acc) ls st) !! p = Some r.
Proof.
  revert st. induction ls as [|l ls IH]; intros st Hp Hr; [done|].
  cbn [fold_left]. apply IH; [|done]. by apply handleMessage_keeps_settled.
Qed.

Lemma fold_fire_keeps_settled ts (ps : gmap nat promise) p r :
  ps !! p = Some r -> r <> Pending ->
  fold_left (fun ps t => fire t ps) ts ps !! p = Some r.
Proof.
  revert ps. induction ts as [|t ts IH]; intros ps Hp Hr; [done|].
  cbn [fold_left]. apply IH; [|done]. unfold fire. by apply settle_keeps_settled.
Qed.

Lemma step_keeps_settled ev st p r :
  promises st !! p = Some r -> r <> Pending ->
  promises (step ev st) !! p = Some r.
Proof.
  intros Hp Hr. destruct ev as [ws data|dt]; cbn [step].
  - unfold deliver. by apply fold_handleMessage_keeps_settled.
  - unfold advance. cbn [promises]. by apply fold_fire_keeps_settled.
Qed.

Lemma run_keeps_settled evs st p r :
  promises st !! p = Some r -> r <> Pending ->
  promises (run evs st) !! p = Some r.
Proof.
  revert st. induction evs as [|ev evs IH]; intros st Hp Hr; [done|].
  cbn [run fold_left]. apply IH; [|done]. by apply step_keeps_settled.
Qed.

(** X19: a promise settles once: after it is resolved or rejected, no frame
    on any socket and no passage of time changes its outcome. *)
Theorem settled_promise_is_final evs st p r :
  promises st !! p = Some r -> r <> Pending ->
  promises (run evs st) !! p = Some r.
Proof. apply run_keeps_settled. Qed.

Lemma settled_promise_is_final_witness :
  promises
    (run [Deliver Examples.ws1 (Parsed Examples.late_response); Advance 60000]
         (advance 30000 (snd Examples.pending_request))) !! 0%nat
  = Some (Failed "Message timeout").
Proof.
  apply (settled_promise_is_final
           [Deliver Examples.ws1 (Parsed Examples.late_response); Advance 60000]
           (advance 30000 (snd Examples.pending_request)) 0%nat (Failed "Message timeout")).
  - reflexivity.
  - discriminate.
Defined.

Lemma handleMessage_unmatched l data st :
  (forall v, data = Parsed v -> get v "id" <> Normal (VStr (messageId l))) ->
  handleMessage l data st = st.
Proof.
  intros H. unfold handleMessage. destruct data as [|v]; [done|]. cbn [JSON_parse].
  destruct (get v "id") as [i|] eqn:Hi; [|done].
  destruct (get v "payload") as [pl|]; [|done].
  destruct (strict_eq i (VStr (messageId l))) eqn:E; [|done].
  apply strict_eq_str' in E. subst i. by destruct (H v eq_refl).
Qed.

(** X20: a frame that matches no pending request of its socket (one that does
    not parse, [null], a frame without [id], with a number as [id] or with
    another request's id) leaves the sender exactly as it was: timers,
    listeners and promises. *)
Theorem unmatched_frame_is_ignored ws data st :
  (forall l v, In l (listeners st) -> socket l = ws -> data = Parsed v ->
               get v "id" <> Normal (VStr (messageId l))) ->
  deliver ws data st = st.
Proof.
  intros H. unfold deliver.
  assert (Hall : Forall (fun l => forall v, data = Parsed v ->
                            get v "id" <> Normal (VStr (messageId l)))
                        (List.filter (fun l => Nat.eqb (socket l) ws) (listeners st))).
  { apply List.Forall_forall. intros l [Hin Hs]%filter_In v Hv.
    apply (H l v Hin); [by apply Nat.eqb_eq | done]. }
  induction Hall as [|l ls Hl _ IH]; [done|].
  cbn [fold_left]. by rewrite handleMessage_unmatched.
Qed.

Lemma unmatched_frame_is_ignored_witness :
  deliver Examples.ws1 (Parsed (VObj [("id", VNum 7); ("payload", VNull)]))
          (snd Examples.pending_request)
  = snd Examples.pending_request.
Proof.
  apply (unmatched_frame_is_ignored Examples.ws1
           (Parsed (VObj [("id", VNum 7); ("payload", VNull)]))
           (snd Examples.pending_request)).
  intros l v [<-|[]] _ [= <-]. discriminate.
Defined.

Lemma fold_handleMessage_promise_other ls data st p :
  Forall (fun l => resolves l <> p) ls ->
  promises (fold_left (fun acc l => handleMessage l data acc) ls st) !! p = promises st !! p.
Proof.
  revert st. induction ls as [|l ls IH]; intros st Hall; [done|].
  apply Forall_cons in Hall as [Hl Hls]. cbn [fold_left].
  rewrite IH by done. by apply handleMessage_promise_other.
Qed.

Lemma clearTimeout_gone h ts : Forall (fun t => handle_id t <> h) (clearTimeout h ts).
Proof.
  apply List.Forall_forall. intros t [_ Ht]%filter_In.
  apply negb_true_iff, Nat.eqb_neq in Ht. done.
Qed.

Lemma off_gone l ls : Forall (fun l' => resolves l' <> resolves l) (off l ls).
Proof.
  apply List.Forall_forall. intros l' [_ Hl]%filter_In.
  unfold same_listener in Hl. apply negb_true_iff, Nat.eqb_neq in Hl. congruence.
Qed.

(** X18: a response that arrives before the request's timer is due, that is
    less than [timeoutMs] ms after the request (30000 when no timeout is
    given; 1 when [timeoutMs] is above 2^31-1, which [setTimeout] replaces
    by 1), resolves the request's promise with the [payload] of the
    response, clears the request's timer and unregisters its listener; a
    later timeout can then no longer reject it. *)
Theorem response_in_time_resolves ws ty payload tmo mid dt props st :
  failing st !! ws = None ->
  fresh_next st ->
  (0 <= dt)%Z ->
  (dt < setTimeout_delay (default 30000 tmo))%Z ->
  assoc "id" props = VStr mid ->
  let '(p, st1) := sendSocketMessage ws ty payload tmo mid st in
  let st2 := deliver ws (Parsed (VObj props)) (advance dt st1) in
  promises st2 !! p = Some (Resolved (assoc "payload" props))
  /\ Forall (fun t => handle_id t <> p) (timers st2)
  /\ Forall (fun l => resolves l <> p) (listeners st2)
  /\ forall evs, promises (run evs st2) !! p = Some (Resolved (assoc "payload" props)).
Proof.
  intros Hf [Htm Hls] _ Hdt Hid.
  pose proof (timeout_rejects_at_deadline ws ty payload tmo mid dt st Hf) as Hp.
  unfold sendSocketMessage in *. rewrite Hf in *.
  set (l := {| socket := ws; messageId := mid; timeout := next st; resolves := next st |}).
  set (st1 := {| clock := clock st; timers := _; listeners := _; promises := _;
                 next := S (next st); sent := _; failing := failing st |}) in *.
  assert (Hp' : promises (advance dt st1) !! next st = Some Pending).
  { rewrite Hp.
    - by rewrite (proj2 (Z.leb_gt _ _) Hdt).
    - eapply Forall_impl; [exact Htm|]. by intros t [? _]. }
  cbv zeta. unfold deliver. rewrite advance_listeners.
  cbn [listeners st1]. rewrite List.filter_app, fold_left_app.
  cbn [List.filter socket]. rewrite Nat.eqb_refl. cbn [fold_left]. fold l.
  set (sigma := fold_left _ (List.filter _ (listeners st)) (advance dt st1)).
  assert (Hs : promises sigma !! next st = Some Pending).
  { unfold sigma. rewrite fold_handleMessage_promise_other; [done|].
    apply List.Forall_forall. intros l' [Hin _]%filter_In.
    rewrite List.Forall_forall in Hls. by apply Hls. }
  assert (Hh : handleMessage l (Parsed (VObj props)) sigma =
               {| clock := clock sigma;
                  timers := clearTimeout (next st) (timers sigma);
                  listeners := off l (listeners sigma);
                  promises := settle (next st) (Resolved (assoc "payload" props))
                                (promises sigma);
                  next := next sigma; sent := sent sigma; failing := failing sigma |}).
  { unfold handleMessage. cbn [JSON_parse get]. rewrite Hid. cbn [messageId l].
    replace (strict_eq (VStr mid) (VStr mid)) with true
      by (cbn; by rewrite String.eqb_refl).
    reflexivity. }
  rewrite Hh.
  assert (Hr : settle (next st) (Resolved (assoc "payload" props)) (promises sigma)
                 !! next st = Some (Resolved (assoc "payload" props)))
    by (by apply settle_pending).
  split; [exact Hr|]. split; [apply clearTimeout_gone|]. split; [apply (off_gone l)|].
  intros evs. apply run_keeps_settled; [exact Hr | discriminate].
Qed.

Lemma response_in_time_resolves_witness :
  promises (deliver Examples.ws1 (Parsed Examples.late_response)
              (advance 1200 (snd Examples.pending_request))) !! 0%nat
  = Some (Resolved (VObj [("ok", VBool true)])).
Proof.
  apply (response_in_time_resolves Examples.ws1 "browser_click"
           (VObj [("element", VStr "#submit")]) None Examples.request_id 1200
           [("id", VStr Examples.request_id); ("payload", VObj [("ok", VBool true)])]
           init).
  - reflexivity.
  - split; constructor.
  - lia.
  - reflexivity.
  - reflexivity.
Defined.

(** X21: when writing the request to the socket throws, the promise is
    rejected at once with that error, the timer just started is cleared, no
    listener is registered and nothing has been written. *)
Theorem send_failure_rejects_at_once ws ty payload tmo mid err st :
  failing st !! ws = Some err ->
  fresh_next st ->
  let '(p, st1) := sendSocketMessage ws ty payload tmo mid st in
  promises st1 !! p = Some (Failed err)
  /\ timers st1 = timers st
  /\ listeners st1 = listeners st
  /\ sent st1 = sent st
  /\ forall evs, promises (run evs st1) !! p = Some (Failed err).
Proof.
  intros Hf [Htm _]. unfold sendSocketMessage. rewrite Hf.
  cbn [promises timers listeners sent].
  assert (Hp : settle (next st) (Failed err) (<[next st:=Pending]> (promises st)) !! next st
               = Some (Failed err)).
  { apply settle_pending. by rewrite lookup_insert_eq. }
  split; [exact Hp|]. split.
  { unfold clearTimeout. rewrite List.filter_app. cbn [List.filter handle_id].
    rewrite Nat.eqb_refl. cbn [negb]. rewrite app_nil_r.
    apply forallb_filter_id. apply forallb_forall. intros t Hin.
    rewrite List.Forall_forall in Htm. destruct (Htm t Hin) as [_ Hh].
    apply negb_true_iff. by apply Nat.eqb_neq. }
  split; [done|]. split; [done|].
  intros evs. apply run_keeps_settled; [exact Hp | discriminate].
Qed.

Lemma send_failure_rejects_at_once_witness :
  let st := {| clock := 0; timers := []; listeners := []; promises := ∅; next := 0%nat;
               sent := []; failing := {[Examples.ws1 := "WebSocket is not open"]} |} in
  let '(p, st1) := sendSocketMessage Examples.ws1 "browser_click" VNull None "abc" st in
  promises st1 !! p = Some (Failed "WebSocket is not open")
  /\ timers st1 = []
  /\ listeners st1 = []
  /\ sent st1 = []
  /\ forall evs, promises (run evs st1) !! p = Some (Failed "WebSocket is not open").
Proof.
  apply (send_failure_rejects_at_once Examples.ws1 "browser_click" VNull None "abc"
           "WebSocket is not open").
  - reflexivity.
  - split; constructor.
Defined.

(** X17: the promise of a request that gets no response, sent with a
    [timeoutMs] of at least 1 ms (30000 when no timeout is given), is
    pending as long as fewer than [timeoutMs] ms have passed and is rejected
    with 'Message timeout' from that moment on, as long as [timeoutMs] is at
    most 2^31-1; a larger [timeoutMs] is replaced by 1 by [setTimeout], and
    the promise is rejected 1 ms after the request. *)
Theorem request_times_out_at_deadline ws ty payload tmo mid dt st :
  failing st !! ws = None ->
  fresh_next st ->
  (1 <= default 30000 tmo)%Z ->
  let '(p, st1) := sendSocketMessage ws ty payload tmo mid st in
  promises (advance dt st1) !! p =
  Some (if (setTimeout_delay (default 30000 tmo) <=? dt)%Z
        then Failed "Message timeout" else Pending).
Proof.
  intros Hf [Htm _] _. apply timeout_rejects_at_deadline; [done|].
  eapply Forall_impl; [exact Htm|]. by intros t [? _].
Qed.

Lemma request_times_out_at_deadline_witness :
  promises (advance 5000 (snd (sendSocketMessage Examples.ws1 "browser_snapshot" (VObj [])
                                 (Some 5000) "q1w2e3r4t" init))) !! 0%nat
  = Some (Failed "Message timeout").
Proof.
  apply (request_times_out_at_deadline Examples.ws1 "browser_snapshot" (VObj [])
           (Some 5000) "q1w2e3r4t" 5000 init).
  - reflexivity.
  - split; constructor.
  - cbn. lia.
Defined.

(** A request sent with a [timeoutMs] of 3000000000 is rejected 1 ms later,
    and so within 50 ms. *)
Lemma oversized_timeout_fires_after_1ms :
  let st1 := snd (sendSocketMessage Examples.ws1 "browser_snapshot" (VObj [])
                    (Some 3000000000) "q1w2e3r4t" init) in
  promises (advance 0 st1) !! 0%nat = Some Pending
  /\ promises (advance 1 st1) !! 0%nat = Some (Failed "Message timeout")
  /\ promises (advance 50 st1) !! 0%nat = Some (Failed "Message timeout").
Proof. repeat split. Qed.



(** ** The test client: the pending table *)

Section ClientFacts.
Import Client.

Lemma client_settle_other k j o (os : gmap nat outcome) : k <> j -> settle k o os !! j = os !! j.
Proof.
  intros Hne. unfold settle. destruct (os !! k) as [[]|]; try reflexivity.
  by rewrite lookup_insert_ne.
Qed.

Lemma client_settle_waiting k o (os : gmap nat outcome) :
  os !! k = Some Waiting -> settle k o os !! k = Some o.
Proof. intros H. unfold settle. rewrite H. by rewrite lookup_insert_eq. Qed.

Lemma client_settle_is_Some k j o (os : gmap nat outcome) :
  is_Some (settle k o os !! j) -> is_Some (os !! j).
Proof.
  destruct (decide (k = j)) as [->|Hne]; [|by rewrite client_settle_other].
  unfold settle. destruct (os !! j) as [[]|] eqn:E; rewrite ?E; try done.
Qed.

Lemma client_remove_consistent k o st :
  consistent st -> k ∈ pendingRequests st -> o <> Waiting ->
  consistent {| connected := connected st; messageId := messageId st;
                pendingRequests := pendingRequests st ∖ {[k]};
                outcomes := settle k o (outcomes st);
                timers := timers st; clock := clock st; sent := sent st |}.
Proof.
  intros (Hp & Hb & Ht) Hk Ho. split; [|split]; cbn.
  - intros j. destruct (decide (k = j)) as [->|Hne].
    + rewrite client_settle_waiting by (by apply Hp). split.
      * intros [_ Hn]%elem_of_difference. destruct Hn. by apply elem_of_singleton.
      * intros [= ->]. done.
    + rewrite client_settle_other by done. rewrite <- Hp. split.
      * by intros [? _]%elem_of_difference.
      * intros Hj. apply elem_of_difference. split; [done|].
        intros ->%elem_of_singleton. done.
  - intros j Hj. apply Hb. by apply client_settle_is_Some in Hj.
  - exact Ht.
Qed.

Lemma client_fire_consistent t st : consistent st -> consistent (fire t st).
Proof.
  intros H. unfold fire. case_bool_decide; [|done].
  by apply client_remove_consistent.
Qed.

Lemma client_fold_fire_consistent ts st :
  consistent st -> consistent (fold_left (fun acc t => fire t acc) ts st).
Proof.
  revert st. induction ts as [|t ts IH]; intros st H; [done|].
  cbn [fold_left]. apply IH. by apply client_fire_consistent.
Qed.

Lemma client_is_pending_Some id st k :
  is_pending id st = Some k -> k ∈ pendingRequests st /\ id = VNum (Z.of_nat k).
Proof.
  unfold is_pending, key_of. destruct (to_boolean id); [|discriminate].
  destruct id; try discriminate.
  destruct (Z.leb_spec 0 n); [|discriminate].
  case_bool_decide; [|discriminate]. intros [= <-]. split; [done|].
  by rewrite Z2Nat.id.
Qed.

Lemma client_step_consistent ev st : consistent st -> consistent (step ev st).
Proof.
  intros H. destruct ev as [| |m params|data|dt]; cbn [step].
  - exact H.
  - exact H.
  - unfold sendRequest. destruct (connected st); [|exact H]. cbn [negb snd].
    destruct H as (Hp & Hb & Ht).
    assert (Hfresh : outcomes st !! S (messageId st) = None).
    { destruct (outcomes st !! S (messageId st)) eqn:E; [|done].
      assert (Hs : is_Some (outcomes st !! S (messageId st))) by (by rewrite E).
      apply Hb in Hs. lia. }
    split; [|split]; cbn.
    + intros k. destruct (decide (S (messageId st) = k)) as [<-|Hne].
      * rewrite lookup_insert_eq. split; [done|]. intros _.
        apply elem_of_union_l. by apply elem_of_singleton.
      * rewrite lookup_insert_ne by done. rewrite <- Hp. split.
        -- intros [Hk|Hk]%elem_of_union; [|done].
           apply elem_of_singleton in Hk. by destruct Hne.
        -- intros Hk. by apply elem_of_union_r.
    + intros k Hk. destruct (decide (S (messageId st) = k)) as [<-|Hne]; [lia|].
      rewrite lookup_insert_ne in Hk by done. apply Hb in Hk. lia.
    + apply Forall_app. split.
      * eapply Forall_impl; [exact Ht|]. cbn. intros; lia.
      * constructor; [cbn; lia | constructor].
  - unfold on_message. destruct (JSON_parse data) as [message|]; [|done].
    destruct (get message "id") as [id|]; [|done].
    destruct (is_pending id st) as [k|] eqn:E; [|done].
    apply client_is_pending_Some in E as [Hk _]. by apply client_remove_consistent.
  - unfold advance. apply client_fold_fire_consistent.
    destruct H as (Hp & Hb & Ht). split; [|split]; cbn; try done.
    apply List.Forall_forall. intros t [Hin _]%filter_In.
    rewrite List.Forall_forall in Ht. by apply Ht.
Qed.

Lemma client_run_consistent evs st : consistent st -> consistent (run evs st).
Proof.
  revert st. induction evs as [|ev evs IH]; intros st H; [done|].
  cbn [run fold_left]. apply IH. by apply client_step_consistent.
Qed.

Lemma client_init_consistent : consistent init.
Proof.
  split; [|split]; cbn.
  - intros k. rewrite lookup_empty. split; [|done].
    intros Hk. by apply not_elem_of_empty in Hk.
  - intros k [x Hx]. by rewrite lookup_empty in Hx.
  - constructor.
Qed.

End ClientFacts.

(** X23: whatever the test client does (connect, close, send requests,
    receive frames, wait), its pending table holds exactly the requests
    whose promise is not yet settled: an answered or timed-out request is
    never left in the table, and a waiting one is never missing from it. *)
Theorem client_table_is_exact evs k :
  k ∈ Client.pendingRequests (Client.run evs Client.init)
  <-> Client.outcomes (Client.run evs Client.init) !! k = Some Client.Waiting.
Proof.
  destruct (client_run_consistent evs Client.init client_init_consistent)
    as (Hp & _). apply Hp.
Qed.

Section ClientTimeouts.
Import Client.

Lemma client_settle_keeps k j o o' (os : gmap nat outcome) :
  os !! j = Some o -> o <> Waiting -> settle k o' os !! j = Some o.
Proof.
  intros Hj Ho. destruct (decide (k = j)) as [->|Hne]; [|by rewrite client_settle_other].
  unfold settle. rewrite Hj. by destruct o.
Qed.

Lemma client_fire_other t st k :
  request t <> k ->
  (k ∈ pendingRequests (fire t st) <-> k ∈ pendingRequests st)
  /\ outcomes (fire t st) !! k = outcomes st !! k.
Proof.
  intros Hne. unfold fire. case_bool_decide; [|done]. cbn. split.
  - split.
    + by intros [? _]%elem_of_difference.
    + intros Hk. apply elem_of_difference. split; [done|].
      intros ->%elem_of_singleton. done.
  - by apply client_settle_other.
Qed.

Lemma client_fold_fire_other ts st k :
  Forall (fun t => request t <> k) ts ->
  (k ∈ pendingRequests (fold_left (fun acc t => fire t acc) ts st) <-> k ∈ pendingRequests st)
  /\ outcomes (fold_left (fun acc t => fire t acc) ts st) !! k = outcomes st !! k.
Proof.
  revert st. induction ts as [|t ts IH]; intros st Hall; [done|].
  apply Forall_cons in Hall as [Ht Hts]. cbn [fold_left].
  destruct (IH (fire t st) Hts) as [-> ->]. by apply client_fire_other.
Qed.

Lemma client_step_keeps_settled ev st k o :
  consistent st -> outcomes st !! k = Some o -> o <> Waiting ->
  outcomes (step ev st) !! k = Some o.
Proof.
  intros Hc Hk Ho. destruct ev as [| |m params|data|dt]; cbn [step]; try done.
  - unfold sendRequest. destruct (connected st); [|done]. cbn.
    destruct Hc as (_ & Hb & _).
    rewrite lookup_insert_ne; [done|].
    intros <-. assert (Hs : is_Some (outcomes st !! S (messageId st))) by (by rewrite Hk).
    apply Hb in Hs. lia.
  - unfold on_message. destruct (JSON_parse data) as [message|]; [|done].
    destruct (get message "id") as [id|]; [|done].
    destruct (is_pending id st) as [j|]; [|done].
    cbn. by apply client_settle_keeps.
  - unfold advance.
    set (base := {| connected := _; messageId := _; pendingRequests := _; outcomes := _;
                    timers := _; clock := _; sent := _ |}).
    assert (Hb : outcomes base !! k = Some o) by done.
    clearbody base. revert base Hb.
    induction (List.filter (fun t => (due t <=? clock st + dt)%Z) (timers st)) as [|t ts IH];
      intros base Hb; [done|].
    cbn [fold_left]. apply IH. unfold fire. case_bool_decide; [|done].
    cbn. by apply client_settle_keeps.
Qed.

Lemma client_run_keeps_settled evs st k o :
  consistent st -> outcomes st !! k = Some o -> o <> Waiting ->
  outcomes (run evs st) !! k = Some o.
Proof.
  revert st. induction evs as [|ev evs IH]; intros st Hc Hk Ho; [done|].
  cbn [run fold_left]. apply IH; [by apply client_step_consistent| |done].
  by apply client_step_keeps_settled.
Qed.

Lemma client_fire_own t st :
  request t ∈ pendingRequests st ->
  outcomes st !! request t = Some Waiting ->
  outcomes (fire t st) !! request t = Some (Refused ("Request timeout for " ++ method t))
  /\ (request t ∉ pendingRequests (fire t st)).
Proof.
  intros Hin Hw. unfold fire. rewrite bool_decide_eq_true_2 by done. cbn. split.
  - by apply client_settle_waiting.
  - intros [_ Hn]%elem_of_difference. apply Hn. by apply elem_of_singleton.
Qed.

End ClientTimeouts.

(** X24: a request of the test client that receives no answer is rejected
    with 'Request timeout for <method>' once 30000 ms have passed and not
    before, and the timeout removes its entry from the pending table, so an
    answer that arrives later is ignored.  The request got an id that no
    earlier request had. *)
Theorem client_timeout_removes_entry m params dt props st :
  Client.consistent st ->
  Client.connected st = true ->
  let id := S (Client.messageId st) in
  let st2 := Client.advance dt (snd (Client.sendRequest m params st)) in
  fst (Client.sendRequest m params st) = Client.Requested id
  /\ Client.outcomes st !! id = None
  /\ Client.outcomes st2 !! id =
     Some (if (30000 <=? dt)%Z
           then Client.Refused ("Request timeout for " ++ m) else Client.Waiting)
  /\ ((30000 <= dt)%Z ->
      (id ∉ Client.pendingRequests st2)
      /\ (assoc "id" props = VNum (Z.of_nat id) ->
          Client.on_message (Parsed (VObj props)) st2 = st2)).
Proof.
  intros Hc Hconn id st2.
  assert (Hfresh : Client.outcomes st !! id = None).
  { destruct Hc as (_ & Hb & _).
    destruct (Client.outcomes st !! id) eqn:E; [|done].
    assert (Hs : is_Some (Client.outcomes st !! id)) by (by rewrite E).
    apply Hb in Hs. unfold id in Hs. lia. }
  assert (Hold : Forall (fun t => Client.request t <> id) (Client.timers st)).
  { destruct Hc as (_ & _ & Ht). eapply Forall_impl; [exact Ht|].
    cbn. intros t Hle. unfold id. lia. }
  unfold st2, Client.sendRequest. rewrite Hconn. cbn [negb fst snd].
  split; [done|]. split; [exact Hfresh|].
  unfold Client.advance. cbn [Client.timers Client.clock].
  rewrite !List.filter_app, fold_left_app. cbn [List.filter Client.due].
  replace (Client.clock st + 30000 <=? Client.clock st + dt)%Z with (30000 <=? dt)%Z
    by (destruct (Z.leb_spec 30000 dt), (Z.leb_spec (Client.clock st + 30000) (Client.clock st + dt)); lia).
  match goal with |- context [fold_left _ (List.filter _ (Client.timers st)) ?b] =>
    set (base := b) end.
  set (due_old := List.filter _ (Client.timers st)).
  assert (Hdue : Forall (fun t => Client.request t <> id) due_old).
  { apply List.Forall_forall. intros t [Hin _]%filter_In.
    rewrite List.Forall_forall in Hold. by apply Hold. }
  destruct (client_fold_fire_other due_old base id Hdue) as [Hmem Hout].
  assert (Hb1 : id ∈ Client.pendingRequests base).
  { cbn. apply elem_of_union_l. by apply elem_of_singleton. }
  assert (Hb2 : Client.outcomes base !! id = Some Client.Waiting).
  { cbn. by rewrite lookup_insert_eq. }
  set (sigma := fold_left _ due_old base) in *.
  destruct (Z.leb_spec 30000 dt) as [Hle|Hlt]; cbn [negb fold_left].
  - set (tm := {| Client.due := Client.clock st + 30000; Client.request := id;
                  Client.method := m |}).
    destruct (client_fire_own tm sigma) as [Ho Hn].
    { change (id ∈ Client.pendingRequests sigma). by apply Hmem. }
    { change (Client.outcomes sigma !! id = Some Client.Waiting). by rewrite Hout. }
    split; [exact Ho|]. intros _. split; [exact Hn|].
    intros Hid. unfold Client.on_message. cbn [JSON_parse get]. rewrite Hid.
    unfold Client.is_pending, Client.key_of.
    replace (to_boolean (VNum (Z.of_nat id))) with true
      by (cbn; destruct (Z.eqb_spec (Z.of_nat id) 0); [unfold id in *; lia | done]).
    rewrite (proj2 (Z.leb_le 0 (Z.of_nat id))) by lia.
    rewrite Nat2Z.id. by rewrite bool_decide_eq_false_2.
  - split; [by rewrite Hout|]. intros; lia.
Qed.

Lemma client_timeout_removes_entry_witness :
  Client.outcomes
    (Client.advance 30000
       (snd (Client.sendRequest "tools/list" None (Client.on_open Client.init)))) !! 1%nat
  = Some (Client.Refused "Request timeout for tools/list").
Proof.
  destruct (client_timeout_removes_entry "tools/list" None 30000 []
              (Client.on_open Client.init)) as (_ & _ & H & _).
  - apply (client_step_consistent Client.Open), client_init_consistent.
  - reflexivity.
  - exact H.
Defined.

(** X25: a frame whose [id] is the id of a pending request of the test client
    resolves that request with the whole frame and removes its entry; from
    then on nothing changes the outcome, in particular not the request's
    own timer, which is never cleared. *)
Theorem client_response_resolves k props st :
  Client.consistent st ->
  k ∈ Client.pendingRequests st ->
  assoc "id" props = VNum (Z.of_nat k) ->
  let st' := Client.on_message (Parsed (VObj props)) st in
  Client.outcomes st' !! k = Some (Client.Answered (VObj props))
  /\ (k ∉ Client.pendingRequests st')
  /\ Client.timers st' = Client.timers st
  /\ forall evs, Client.outcomes (Client.run evs st') !! k
                 = Some (Client.Answered (VObj props)).
Proof.
  intros Hc Hk Hid st'.
  assert (Hw : Client.outcomes st !! k = Some Client.Waiting)
    by (destruct Hc as (Hp & _); by apply Hp).
  assert (Hk1 : (1 <= k)%nat).
  { destruct Hc as (_ & Hb & _). apply Hb. by rewrite Hw. }
  assert (Hst' : st' = {| Client.connected := Client.connected st;
                          Client.messageId := Client.messageId st;
                          Client.pendingRequests := Client.pendingRequests st ∖ {[k]};
                          Client.outcomes :=
                            Client.settle k (Client.Answered (VObj props)) (Client.outcomes st);
                          Client.timers := Client.timers st;
                          Client.clock := Client.clock st;
                          Client.sent := Client.sent st |}).
  { unfold st', Client.on_message. cbn [JSON_parse get]. rewrite Hid.
    unfold Client.is_pending, Client.key_of.
    replace (to_boolean (VNum (Z.of_nat k))) with true
      by (cbn; destruct (Z.eqb_spec (Z.of_nat k) 0); [lia | done]).
    rewrite (proj2 (Z.leb_le 0 (Z.of_nat k))) by lia.
    rewrite Nat2Z.id. by rewrite bool_decide_eq_true_2. }
  assert (Ho : Client.outcomes st' !! k = Some (Client.Answered (VObj props))).
  { rewrite Hst'. cbn. by apply client_settle_waiting. }
  split; [exact Ho|]. split.
  { rewrite Hst'. cbn. intros [_ Hn]%elem_of_difference. apply Hn.
    by apply elem_of_singleton. }
  split; [by rewrite Hst'|].
  intros evs. apply client_run_keeps_settled; [|exact Ho|discriminate].
  apply (client_step_consistent (Client.Receive (Parsed (VObj props))) st Hc).
Qed.

Lemma client_response_resolves_witness :
  Client.outcomes
    (Client.advance 30000
       (Client.on_message
          (Parsed (VObj [("jsonrpc", VStr "2.0"); ("id", VNum 1); ("result", VObj [])]))
          (snd (Client.sendRequest "tools/list" None (Client.on_open Client.init))))) !! 1%nat
  = Some (Client.Answered
            (VObj [("jsonrpc", VStr "2.0"); ("id", VNum 1); ("result", VObj [])])).
Proof.
  destruct (client_response_resolves 1
              [("jsonrpc", VStr "2.0"); ("id", VNum 1); ("result", VObj [])]
              (snd (Client.sendRequest "tools/list" None (Client.on_open Client.init))))
    as (_ & _ & _ & H).
  - apply (client_step_consistent (Client.Request "tools/list" None)),
          (client_step_consistent Client.Open), client_init_consistent.
  - cbn. apply elem_of_union_l. by apply elem_of_singleton.
  - reflexivity.
  - exact (H [Client.Advance 30000]).
Defined.

(** ** The background service: reconnection *)

Section BackgroundFacts.
Import Background.

Lemma close_and_retry_spec s st :
  to_boolean (connectedTabId st) = true ->
  close_and_retry s st =
  if (reconnectAttempts st <? maxReconnectAttempts)%Z
  then (fst (reconnect (fst (onclose s st))), Some (reconnectDelay * reconnectAttempts st)%Z)
  else (fst (onclose s st), None).
Proof.
  intros Htab. unfold close_and_retry, onclose, handleDisconnection.
  cbn [with_status with_readyState connectedTabId reconnectAttempts].
  rewrite Htab. cbn [andb].
  destruct (reconnectAttempts st <? maxReconnectAttempts)%Z; reflexivity.
Qed.

Lemma reconnect_after_close s st :
  let st' := fst (reconnect (fst (onclose s st))) in
  ws st' = Some (next_socket st)
  /\ connectedTabId st' = connectedTabId st
  /\ reconnectAttempts st' = (reconnectAttempts st + 1)%Z
  /\ connectionStatus st' = false.
Proof. cbn. done. Qed.

Lemma retries_delays n : forall st s,
  ws st = Some s ->
  to_boolean (connectedTabId st) = true ->
  (0 <= reconnectAttempts st)%Z ->
  snd (retries n st) =
  map (fun k => (reconnectDelay * (reconnectAttempts st + Z.of_nat k))%Z)
      (seq 0 (Nat.min n (Z.to_nat (maxReconnectAttempts - reconnectAttempts st)))).
Proof.
  induction n as [|n IH]; intros st s Hws Htab Ha; [reflexivity|].
  cbn [retries]. rewrite Hws, (close_and_retry_spec s st Htab).
  destruct (Z.ltb_spec (reconnectAttempts st) maxReconnectAttempts) as [Hlt|Hge].
  - destruct (reconnect_after_close s st) as (Hws' & Htab' & Hatt' & _).
    set (st' := fst (reconnect (fst (onclose s st)))) in *.
    specialize (IH st' (next_socket st) Hws').
    rewrite Htab', Hatt' in IH. specialize (IH Htab ltac:(lia)).
    destruct (retries n st') as [st2 delays]. cbn [snd] in *. rewrite IH.
    replace (Z.to_nat (maxReconnectAttempts - reconnectAttempts st))
      with (S (Z.to_nat (maxReconnectAttempts - (reconnectAttempts st + 1)))) by lia.
    cbn [Nat.min seq map]. f_equal; [f_equal; lia|].
    rewrite <- seq_shift, map_map. apply map_ext. intros k. f_equal. lia.
  - replace (Z.to_nat (maxReconnectAttempts - reconnectAttempts st)) with 0%nat by lia.
    by rewrite Nat.min_0_r.
Qed.

End BackgroundFacts.

(** X28: when the server stays down after an established connection, the
    background service retries with delays of 0, 1000, 2000, 3000 and 4000
    ms and then gives up: [n] failures in a row start min(n, 5) reconnect
    timers, the k-th with a delay of 1000 k ms. *)
Theorem reconnect_backoff n s st :
  Background.ws st = Some s ->
  to_boolean (Background.connectedTabId st) = true ->
  Background.reconnectAttempts st = 0%Z ->
  snd (Background.retries n st) =
  map (fun k => (1000 * Z.of_nat k)%Z) (seq 0 (Nat.min n 5)).
Proof.
  intros Hws Htab Ha.
  rewrite (retries_delays n st s Hws Htab) by lia. rewrite Ha.
  change (Z.to_nat (Background.maxReconnectAttempts - 0)) with 5%nat.
  apply map_ext. intros k. unfold Background.reconnectDelay. lia.
Qed.

Lemma reconnect_backoff_witness :
  snd (Background.retries 8
         (fst (Background.onopen 0%nat
                 (snd (fst (Background.connect (VNum 17) Background.init))))))
  = [0; 1000; 2000; 3000; 4000]%Z.
Proof.
  apply (reconnect_backoff 8 0%nat
           (fst (Background.onopen 0%nat
                   (snd (fst (Background.connect (VNum 17) Background.init)))))).
  - reflexivity.
  - reflexivity.
  - reflexivity.
Defined.

(** X29: after [disconnect()] the close of the socket it closed, or of any
    other socket, starts no reconnect timer, and frames that still arrive
    make the service write nothing, neither to the server nor to a tab. *)
Theorem disconnect_stops_auto_reconnect st s data :
  let st1 := fst (Background.disconnect st) in
  Background.ws st1 = None
  /\ Background.connectedTabId st1 = VNull
  /\ Background.reconnectAttempts st1 = 0%Z
  /\ snd (Background.onclose s st1)
     = [Background.broadcastStatusChange (fst (Background.onclose s st1))]
  /\ Background.handleServerMessage data st1 = (st1, []).
Proof.
  cbn zeta. repeat split.
  unfold Background.handleServerMessage.
  destruct (JSON_parse data) as [message|]; [|done].
  destruct (get message "type") as [t|]; [|done].
  destruct (get message "action") as [a|]; [|done].
  destruct (get message "params") as [p|]; [|done].
  destruct (strict_eq t (VStr "execute")); [reflexivity|].
  destruct (strict_eq t (VStr "ping")); reflexivity.
Qed.

(** X30: [disconnect()] does not cancel a reconnect timer that is already
    running: when that timer fires afterwards, the service opens a new
    socket to the server although no tab is connected. *)
Theorem pending_reconnect_outlives_disconnect st :
  let st1 := fst (Background.disconnect st) in
  let '(st2, out) := Background.reconnect st1 in
  out = [Background.NewWebSocket (Background.next_socket st)
           ("ws://localhost:" ++ to_string (Background.settings_port st));
         Background.SetTimeout 10000 (Background.ConnectTimeout (Background.next_socket st))]
  /\ Background.ws st2 = Some (Background.next_socket st)
  /\ Background.connectedTabId st2 = VNull
  /\ Background.reconnectAttempts st2 = 1%Z.
Proof. cbn. done. Qed.

(** ** The background service and the server together *)

Lemma background_ignores_other_types v st :
  get v "type" <> Normal (VStr "execute") ->
  get v "type" <> Normal (VStr "ping") ->
  Background.handleServerMessage (Parsed v) st = (st, []).
Proof.
  intros He Hp. unfold Background.handleServerMessage. cbn [JSON_parse].
  destruct (get v "type") as [t|]; [|done].
  destruct (get v "action") as [a|]; [|done].
  destruct (get v "params") as [p|]; [|done].
  destruct (strict_eq t (VStr "execute")) eqn:E1.
  { apply strict_eq_str' in E1 as ->. by destruct He. }
  destruct (strict_eq t (VStr "ping")) eqn:E2.
  { apply strict_eq_str' in E2 as ->. by destruct Hp. }
  reflexivity.
Qed.

(** X27: the background service drops every request the server forwards with
    a type declared in [SocketMessageMap]: it handles only the types
    [execute] and [ping], so the frame that [sendSocketMessage] writes makes
    it send nothing back and changes nothing in it. *)
Theorem forwarded_requests_are_dropped ws ty payload tmo mid st bg :
  In ty Messaging.SocketMessageMap ->
  failing st !! ws = None ->
  exists frame,
    sent (snd (sendSocketMessage ws ty payload tmo mid st)) = (sent st ++ [(ws, frame)])%list
    /\ Background.handleServerMessage (Parsed frame) bg = (bg, []).
Proof.
  intros Hty Hf.
  exists (VObj [("id", VStr mid); ("type", VStr ty); ("payload", payload)]). split.
  - unfold sendSocketMessage. by rewrite Hf.
  - apply background_ignores_other_types; cbn [get assoc String.eqb];
      change (assoc "type" [("id", VStr mid); ("type", VStr ty); ("payload", payload)])
        with (VStr ty);
      intros [= ->]; cbn in Hty;
      repeat (destruct Hty as [Hty|Hty]; [discriminate|]); destruct Hty.
Qed.

Lemma forwarded_requests_are_dropped_witness :
  exists frame,
    sent (snd Examples.pending_request) = [(Examples.ws1, frame)]
    /\ Background.handleServerMessage (Parsed frame) Background.init = (Background.init, []).
Proof.
  apply (forwarded_requests_are_dropped Examples.ws1 "browser_click"
           (VObj [("element", VStr "#submit")]) None Examples.request_id init
           Background.init).
  - left. reflexivity.
  - reflexivity.
Defined.

Lemma onopen_frames s bg :
  Background.ws bg = Some s ->
  Background.written (snd (Background.onopen s bg)) =
  ((if to_boolean (Background.settings_token bg)
    then [Background.auth_frame (Background.settings_token bg)] else [])
   ++ [Background.capabilities_frame])%list.
Proof.
  intros Hws. unfold Background.onopen, Background.ws_send.
  cbn [Background.with_attempts Background.with_status Background.with_readyState
       Background.ws Background.readyState Background.settings_token].
  rewrite Hws, lookup_insert_eq.
  destruct (to_boolean (Background.settings_token bg)); reflexivity.
Qed.

Lemma on_message_first_extension_out now ws v (s : Server.state) :
  type_of s ws = unknown ->
  isExtensionMessage v = Normal true ->
  let s1 := set_context_ws (Some ws) (add_extension ws (set_connectionType ws extension s)) in
  on_message now ws (Parsed v) s =
  (Normal tt, s1,
   (match _ws (context s) with Some old => [Close old] | None => [] end
    ++ snd (handleExtensionMessage now ws v s1))%list).
Proof.
  intros Hu He s1. rewrite on_message_unknown by done.
  unfold try_catch, bind at 1. rewrite (classify_extension _ _ _ He).
  unfold bind, gets. rewrite type_of_set_context, type_of_add_extension, type_of_set_eq.
  destruct (isExtensionMessage_true _ He) as (props & k & -> & Ht & Hin).
  destruct (handleExtensionMessage_keyword now ws props k s1 Ht Hin) as (reply & Hr & _).
  fold s1. rewrite Hr. reflexivity.
Qed.

(** X26: the frames the background service writes when its socket opens
    ([auth] if a token is set, then [capabilities]) make the server classify
    the connection as the executor on the first of them and install it as
    the current channel; the server answers each frame, and the service
    drops every answer, so the handshake ends there. *)
Theorem handshake_installs_executor bg s (srv : Server.state) wsS now :
  Background.ws bg = Some s ->
  type_of srv wsS = unknown ->
  let token := Background.settings_token bg in
  let '(bg1, out) := Background.onopen s bg in
  let '(srv1, replies) :=
    Server.run (map (fun f => Server.Message now wsS (Parsed f)) (Background.written out))
               srv in
  type_of srv1 wsS = extension
  /\ _ws (context srv1) = Some wsS
  /\ replies =
     (match _ws (context srv) with Some old => [Close old] | None => [] end
      ++ (if to_boolean token then [Send wsS (VObj [("type", VStr "auth_success")])] else [])
      ++ [Send wsS (VObj [("type", VStr "capabilities_received")])])%list
  /\ forall w m, In (Send w m) replies ->
       Background.handleServerMessage (Parsed m) bg1 = (bg1, []).
Proof.
  intros Hws Hu token.
  pose proof (onopen_frames s bg Hws) as Hfr.
  destruct (Background.onopen s bg) as [bg1 out]. cbn [snd] in Hfr. rewrite Hfr.
  fold token.
  set (s1 := set_context_ws (Some wsS)
               (add_extension wsS (set_connectionType wsS extension srv))).
  assert (Ht1 : type_of s1 wsS = extension).
  { unfold s1. by rewrite type_of_set_context, type_of_add_extension, type_of_set_eq. }
  assert (Hdrop : forall m, m = VObj [("type", VStr "auth_success")]
                            \/ m = VObj [("type", VStr "capabilities_received")] ->
                  Background.handleServerMessage (Parsed m) bg1 = (bg1, [])).
  { intros m [-> | ->]; apply background_ignores_other_types; discriminate. }
  destruct (to_boolean token) eqn:Htok; cbn [app map].
  - rewrite run_cons. cbn [Server.step].
    rewrite !exec_out, !exec_state.
    rewrite (on_message_first_extension_out now wsS _ srv Hu) by reflexivity.
    cbn [fst snd]. fold s1.
    rewrite run_cons. cbn [Server.step Server.run].
    rewrite !exec_out, !exec_state.
    rewrite (on_message_extension now wsS _ s1 Ht1).
    cbn [fst snd app].
    split; [exact Ht1|]. split; [reflexivity|]. split.
    + destruct (_ws (context srv)); reflexivity.
    + intros w m Hin. apply Hdrop.
      destruct (_ws (context srv)); cbn in Hin.
      * destruct Hin as [Hin|[Hin|[Hin|[]]]]; try discriminate;
          injection Hin as _ <-; tauto.
      * destruct Hin as [Hin|[Hin|[]]]; injection Hin as _ <-; tauto.
  - rewrite run_cons. cbn [Server.step Server.run].
    rewrite !exec_out, !exec_state.
    rewrite (on_message_first_extension_out now wsS _ srv Hu) by reflexivity.
    cbn [fst snd]. fold s1.
    split; [exact Ht1|]. split; [reflexivity|]. split.
    + destruct (_ws (context srv)); reflexivity.
    + intros w m Hin. apply Hdrop.
      destruct (_ws (context srv)); cbn in Hin.
      * destruct Hin as [Hin|[Hin|[]]]; try discriminate; injection Hin as _ <-; tauto.
      * destruct Hin as [Hin|[]]; injection Hin as _ <-; tauto.
Qed.

Lemma handshake_installs_executor_witness :
  let bg := Background.with_readyState 0%nat Background.CONNECTING
              (snd (fst (Background.connect (VNum 17) Background.init))) in
  let '(bg1, out) := Background.onopen 0%nat bg in
  let '(srv1, replies) :=
    Server.run (map (fun f => Server.Message 5 Examples.ws2 (Parsed f))
                    (Background.written out))
               Examples.server_with_executor in
  type_of srv1 Examples.ws2 = extension
  /\ _ws (context srv1) = Some Examples.ws2
  /\ replies =
     (match _ws (context Examples.server_with_executor) with
      | Some old => [Close old] | None => [] end
      ++ (if to_boolean (Background.settings_token bg)
          then [Send Examples.ws2 (VObj [("type", VStr "auth_success")])] else [])
      ++ [Send Examples.ws2 (VObj [("type", VStr "capabilities_received")])])%list
  /\ forall w m, In (Send w m) replies ->
       Background.handleServerMessage (Parsed m) bg1 = (bg1, []).
Proof.
  apply (handshake_installs_executor
           (Background.with_readyState 0%nat Background.CONNECTING
              (snd (fst (Background.connect (VNum 17) Background.init))))
           0%nat Examples.server_with_executor Examples.ws2 5).
  - reflexivity.
  - reflexivity.
Defined.
